(** * Codeforces skipped-verdict detector: the analysis engine of [Index.tsx]

    The repository is a React page whose only data-flow logic is the
    asynchronous function [analyzeUser]: it validates the typed user name,
    queries two Codeforces endpoints ([user.info], [user.status]), filters the
    submissions whose verdict is ['SKIPPED'] and stores a small summary record
    in the component state.  This file embeds that function and the JavaScript
    operations it relies on, and proves the properties of the summary. *)

From Stdlib Require Import Ascii String QArith Qround Qpower Lia Lqa Floats.
From stdpp Require Import base decidable option list strings pretty.

(** ** JavaScript numbers

    [skippedCount / totalSubmissions * 100] is evaluated in IEEE-754 binary64
    arithmetic.  A finite double is a rational; every operation returns the
    exact result rounded to the nearest double, ties to the even significand.
    Array lengths are below [2^32], so every value met here is either zero or
    in the normal range, and the model leaves out subnormals, infinities and
    NaN. *)
Module Double.
Local Open Scope Q_scope.

(** The exponent [e] of the binade of a positive rational:
    [2^e <= q < 2^(e+1)]. *)
Definition binade (q : Q) : Z :=
  let d := (Z.log2 (Qnum q) - Z.log2 (Z.pos (Qden q)))%Z in
  if Qle_bool (2 ^ d) q then d else (d - 1)%Z.

(** Nearest integer, ties to even. *)
Definition nearest_even (x : Q) : Z :=
  let f := Qfloor x in
  match Qcompare (x - inject_Z f) (1 # 2) with
  | Lt => f
  | Gt => (f + 1)%Z
  | Eq => if Z.even f then f else (f + 1)%Z
  end.

(** Rounding of a positive rational to 53 significant bits. *)
Definition round_pos (q : Q) : Q :=
  let e := binade q in
  Qred (inject_Z (nearest_even (q * 2 ^ (52 - e))) * 2 ^ (e - 52)).

Definition round (q : Q) : Q :=
  match Qcompare q 0 with
  | Eq => 0
  | Gt => round_pos q
  | Lt => - round_pos (- q)
  end.

(** [x / y] and [x * y].  The only division of the page is guarded by
    [totalSubmissions > 0], so the divisor is never zero. *)
Definition div (x y : Q) : Q := round (x / y).
Definition mul (x y : Q) : Q := round (x * y).

(** Array lengths are integers below [2^53], which are doubles. *)
Definition of_nat (n : nat) : Q := inject_Z (Z.of_nat n).
End Double.

(** ** JavaScript strings

    A string is a sequence of code units; the model keeps the code units
    below 256, one [ascii] each. *)
Module Js.
(** The [WhiteSpace] and [LineTerminator] code points below 256: TAB, LF,
    VT, FF, CR, SPACE and NBSP. *)
Definition is_white_space (c : ascii) : bool :=
  match c with
  | "009" | "010" | "011" | "012" | "013" | " " | "160" => true
  | _ => false
  end%char.

Fixpoint trimStart (s : string) : string :=
  match s with
  | String c s' => if is_white_space c then trimStart s' else s
  | EmptyString => EmptyString
  end.

Definition trimEnd (s : string) : string :=
  String.rev (trimStart (String.rev s)).

(** [String.prototype.trim] *)
Definition trim (s : string) : string := trimEnd (trimStart s).

(** [x || y] on an optional string: the empty string and [undefined] are
    falsy. *)
Definition or_else (x : option string) (y : string) : string :=
  match x with
  | Some s => if decide (s = "") then y else s
  | None => y
  end.

(** [Number.prototype.toFixed(1)] of a non-negative number: the integer [n]
    with [n / 10] nearest to [x], the larger one on a tie, printed with one
    digit after the point. *)
Definition toFixed1 (x : Q) : string :=
  let n := Z.to_N (Qfloor (x * 10 + (1 # 2))) in
  pretty (n `div` 10)%N +:+ "." +:+ pretty (n `mod` 10)%N.
End Js.

(** ** Data model: the interfaces of [Index.tsx] *)

Record Problem := {
  problem_contestId : option Z;
  problem_index : string;
  problem_name : string;
  problem_type : string;
  problem_rating : option Z
}.

Record Member := { member_handle : string }.

Record Author := {
  author_contestId : option Z;
  members : list Member;
  participantType : string;
  ghost : bool;
  room : option Z;
  startTimeSeconds : option Z
}.

Record Submission := {
  id : Z;
  contestId : option Z;
  creationTimeSeconds : Z;
  relativeTimeSeconds : Z;
  problem : Problem;
  author : Author;
  programmingLanguage : string;
  verdict : option string;
  testset : string;
  passedTestCount : Z;
  timeConsumedMillis : Z;
  memoryConsumedBytes : Z
}.

Record AnalysisResult := {
  isCheat : bool;
  totalSubmissions : nat;
  skippedSubmissions : nat;
  skippedPercentage : Q;
  suspiciousSubmissions : list Submission
}.

(** The element of [user.info]'s result list; the page reads [handle],
    [rating] and [maxRating] from it. *)
Record UserInfo := {
  handle : string;
  rating : option Z;
  maxRating : option Z
}.

(** ** The analysis of a fetched submission list ([analyzeUser], the block
    that builds [analysisResult]) *)

(** [sub.verdict === 'SKIPPED'] *)
Definition is_skipped (sub : Submission) : Prop := verdict sub = Some "SKIPPED".

Global Instance is_skipped_dec sub : Decision (is_skipped sub).
Proof. unfold is_skipped. apply _. Defined.

(** The constant [skippedSubmissions] of the source: the submissions the
    filter keeps, in the order of the fetched list.  (The result field of the
    same name holds its length.) *)
Definition skipped_submissions (submissions : list Submission) : list Submission :=
  filter is_skipped submissions.

Definition analysisResult (submissions : list Submission) : AnalysisResult :=
  let totalSubmissions := length submissions in
  let skippedCount := length (skipped_submissions submissions) in
  let skippedPercentage :=
    if decide (0 < totalSubmissions)
    then Double.mul (Double.div (Double.of_nat skippedCount)
                                (Double.of_nat totalSubmissions)) 100
    else 0%Q in
  let isCheat := bool_decide (0 < skippedCount) in
  {| isCheat := isCheat;
     totalSubmissions := totalSubmissions;
     skippedSubmissions := skippedCount;
     skippedPercentage := skippedPercentage;
     suspiciousSubmissions := take 10 (skipped_submissions submissions) |}.

(** ** The remote platform *)

Inductive ErrorName := Error | TypeError | SyntaxError.

(** A thrown value; everything [analyzeUser] can catch is an [Error]
    instance, which has a message. *)
Record JsError := { error_name : ErrorName; message : string }.

(** The JSON envelope both endpoints answer with. *)
Module Api.
Record Envelope (A : Type) := {
  status : option string;
  comment : option string;
  result : list A
}.
Arguments status {A} _.
Arguments comment {A} _.
Arguments result {A} _.

(** What [fetch] resolves to: the HTTP status code and what
    [response.json()] settles to (it rejects with a [SyntaxError] when the
    body is not JSON). *)
Record Response (A : Type) := {
  http_status : Z;
  json_body : JsError + Envelope A
}.
Arguments http_status {A} _.
Arguments json_body {A} _.
End Api.

(** The platform, seen from the page: for each URL, [fetch] either rejects
    (the request could not complete) or resolves to a response. *)
Record Remote := {
  user_info : string -> JsError + Api.Response UserInfo;
  user_status : string -> JsError + Api.Response Submission
}.

(** ** The page: component state and observable effects *)

Record Toast := {
  title : string;
  description : string;
  variant : option string
}.

Inductive Event :=
| Fetch (url : string)
| ShowToast (t : Toast)
| ConsoleError (label : string) (error : JsError).

Record Page := {
  username : string;
  loading : bool;
  result : option AnalysisResult;
  userInfo : option UserInfo
}.

Record World := { page : Page; events : list Event }.

(** An asynchronous computation: it threads the page state and the log of
    effects, and settles to a value or to a thrown error. *)
Definition Async (A : Type) : Type := World -> (JsError + A) * World.

Definition ret {A} (a : A) : Async A := fun w => (inr a, w).

Definition bind {A B} (m : Async A) (k : A -> Async B) : Async B :=
  fun w =>
    match m w with
    | (inr a, w') => k a w'
    | (inl e, w') => (inl e, w')
    end.

Definition throw {A} (e : JsError) : Async A := fun w => (inl e, w).

Declare Scope async_scope.
Delimit Scope async_scope with async.
Bind Scope async_scope with Async.
Notation "'let*' x := m 'in' k" := (bind m (fun x => k))
  (at level 10, x name, m at level 100, k at level 200) : async_scope.
Notation "m ;;; k" := (bind m (fun _ => k))
  (at level 100, k at level 200, right associativity) : async_scope.

Definition emit (ev : Event) : Async unit :=
  fun w => (inr tt, {| page := page w; events := events w ++ [ev] |}).

Definition update (f : Page -> Page) : Async unit :=
  fun w => (inr tt, {| page := f (page w); events := events w |}).

Definition read {A} (f : Page -> A) : Async A := fun w => (inr (f (page w)), w).

Definition setLoading (b : bool) : Async unit :=
  update (fun p => {| username := username p; loading := b;
                      result := result p; userInfo := userInfo p |}).

Definition setResult (r : option AnalysisResult) : Async unit :=
  update (fun p => {| username := username p; loading := loading p;
                      result := r; userInfo := userInfo p |}).

Definition setUserInfo (u : option UserInfo) : Async unit :=
  update (fun p => {| username := username p; loading := loading p;
                      result := result p; userInfo := u |}).

Definition toast (t : Toast) : Async unit := emit (ShowToast t).

Definition console_error (label : string) (error : JsError) : Async unit :=
  emit (ConsoleError label error).

(** [await fetch(url)] *)
Definition fetch {A} (endpoint : string -> JsError + Api.Response A)
    (url : string) : Async (Api.Response A) :=
  (emit (Fetch url) ;;;
   match endpoint url with
   | inl e => throw e
   | inr response => ret response
   end)%async.

(** [await response.json()] *)
Definition json {A} (response : Api.Response A) : Async (Api.Envelope A) :=
  match Api.json_body response with
  | inl e => throw e
  | inr data => ret data
  end.

(** [try { body } catch (error) { handler } finally { finalizer }] *)
Definition try_catch_finally (body : Async unit) (handler : JsError -> Async unit)
    (finalizer : Async unit) : Async unit :=
  fun w =>
    match body w with
    | (inr tt, w1) => finalizer w1
    | (inl error, w1) =>
        match handler error w1 with
        | (inr tt, w2) => finalizer w2
        | (inl e, w2) =>
            match finalizer w2 with
            | (inr tt, w3) => (inl e, w3)
            | r => r
            end
        end
    end.

(** ** [analyzeUser] *)

Definition user_info_url (handle : string) : string :=
  "https://codeforces.com/api/user.info?handles=" +:+ handle.

Definition user_status_url (handle : string) : string :=
  "https://codeforces.com/api/user.status?handle=" +:+ handle.

Definition destructive : option string := Some "destructive".

Section AnalyzeUser.
Variable remote : Remote.

Local Open Scope async_scope.

(** The body of the [try] block. *)
Definition analyzeUser_try (username : string) : Async unit :=
  let* userResponse := fetch (user_info remote) (user_info_url username) in
  let* userData := json userResponse in
  (if decide (Api.status userData <> Some "OK")
   then throw {| error_name := Error;
                 message := Js.or_else (Api.comment userData) "User not found" |}
   else ret tt) ;;;
  setUserInfo (Api.result userData !! 0%nat) ;;;
  let* submissionsResponse := fetch (user_status remote) (user_status_url username) in
  let* submissionsData := json submissionsResponse in
  (if decide (Api.status submissionsData <> Some "OK")
   then throw {| error_name := Error;
                 message := Js.or_else (Api.comment submissionsData)
                                       "Failed to fetch submissions" |}
   else ret tt) ;;;
  let submissions := Api.result submissionsData in
  let analysis := analysisResult submissions in
  setResult (Some analysis) ;;;
  if isCheat analysis
  then toast {| title := "Potential Cheater Detected!";
                description := "Found " +:+ pretty (skippedSubmissions analysis)
                               +:+ " skipped submissions";
                variant := destructive |}
  else toast {| title := "Analysis Complete";
                description := "No suspicious activity detected";
                variant := None |}.

(** The [catch] block; [error instanceof Error] holds of every thrown
    value, so the toast shows [error.message]. *)
Definition analyzeUser_catch (error : JsError) : Async unit :=
  console_error "Error analyzing user:" error ;;;
  toast {| title := "Error"; description := message error; variant := destructive |}.

Definition analyzeUser : Async unit :=
  let* username := read username in
  if decide (Js.trim username = "")
  then toast {| title := "Error"; description := "Please enter a username";
                variant := destructive |}
  else
    setLoading true ;;;
    setResult None ;;;
    setUserInfo None ;;;
    try_catch_finally (analyzeUser_try username) analyzeUser_catch (setLoading false).

(** One click on the button, from a page showing [p]. *)
Definition click (p : Page) : World :=
  snd (analyzeUser {| page := p; events := [] |}).

(** The URLs requested, in order. *)
Definition requests (w : World) : list string :=
  omap (fun ev => match ev with Fetch url => Some url | _ => None end) (events w).

(** The toasts shown, in order. *)
Definition toasts (w : World) : list Toast :=
  omap (fun ev => match ev with ShowToast t => Some t | _ => None end) (events w).
End AnalyzeUser.

(** A page on which [name] has been typed and nothing analysed yet. *)
Definition typed (name : string) : Page :=
  {| username := name; loading := false; result := None; userInfo := None |}.


(** ** Definitions used to state the properties *)

(** The true number of submissions carrying the skip sentinel, as the
    specification words it: counted one submission at a time over the whole
    fetched list, with no reference to the filter or to the display cap. *)
Fixpoint skip_count (submissions : list Submission) : nat :=
  match submissions with
  | [] => 0
  | sub :: rest =>
      match verdict sub with
      | Some v => if String.eqb v "SKIPPED" then S (skip_count rest) else skip_count rest
      | None => skip_count rest
      end
  end.

(** The suspicious partition, as the specification words it: the submissions
    whose verdict is present and equal to the skip sentinel, in the order of
    the fetched list; built one submission at a time, with no reference to the
    filter of the code. *)
Fixpoint suspicious_partition (submissions : list Submission) : list Submission :=
  match submissions with
  | [] => []
  | sub :: rest =>
      match verdict sub with
      | Some v =>
          if String.eqb v "SKIPPED"
          then sub :: suspicious_partition rest
          else suspicious_partition rest
      | None => suspicious_partition rest
      end
  end.

(** A handle that is empty or made of white space only. *)
Fixpoint blank (s : string) : bool :=
  match s with
  | String c s' => Js.is_white_space c && blank s'
  | EmptyString => true
  end.

(** The page once [analyzeUser] has settled with the given analysis and
    profile: [loading] is back to [false]. *)
Definition settled (p : Page) (r : option AnalysisResult) (u : option UserInfo) : Page :=
  {| username := username p; loading := false; result := r; userInfo := u |}.

(** The effects of the [catch] block. *)
Definition reported (error : JsError) : list Event :=
  [ConsoleError "Error analyzing user:" error;
   ShowToast {| title := "Error"; description := message error;
                variant := destructive |}].

(** ** Sample data *)

Definition submission_with (n : Z) (v : option string) : Submission :=
  {| id := n; contestId := Some 1%Z; creationTimeSeconds := 1700000000 - n;
     relativeTimeSeconds := 2147483647;
     problem := {| problem_contestId := Some 1%Z; problem_index := "A";
                   problem_name := "Theatre Square"; problem_type := "PROGRAMMING";
                   problem_rating := Some 1000%Z |};
     author := {| author_contestId := Some 1%Z;
                  members := [ {| member_handle := "tourist" |} ];
                  participantType := "PRACTICE"; ghost := false;
                  room := None; startTimeSeconds := None |};
     programmingLanguage := "GNU C++17"; verdict := v; testset := "TESTS";
     passedTestCount := 0; timeConsumedMillis := 0; memoryConsumedBytes := 0 |}.

(** [count] submissions at positions [first], [first + 1], ...; those at the
    positions listed in [skipped] carry ['SKIPPED'], the others ['OK']. *)
Definition history (first count : nat) (skipped : list nat) : list Submission :=
  map (fun i => submission_with (Z.of_nat i)
                  (if decide (i ∈ skipped) then Some "SKIPPED" else Some "OK"))
      (seq first count).

(** The input of the specification's worked example, read literally: twelve
    submissions, the skip verdict at positions 2, 5, 9 and 10 to 13; the
    positions are counted from [first]. *)
Definition worked_example (first : nat) : list Submission :=
  history first 12 [2; 5; 9; 10; 11; 12; 13].

(** Twelve submissions, eight of them skipped. *)
Definition eight_of_twelve : list Submission :=
  history 1 12 [2; 5; 6; 8; 9; 10; 11; 12].

Definition envelope {A} (st : string) (c : option string) (r : list A) : Api.Envelope A :=
  {| Api.status := Some st; Api.comment := c; Api.result := r |}.

(** A platform that answers every request with the same two responses. *)
Definition answering (code1 : Z) (info : Api.Envelope UserInfo)
    (code2 : Z) (submissions : Api.Envelope Submission) : Remote :=
  {| user_info := fun _ => inr {| Api.http_status := code1; Api.json_body := inr info |};
     user_status := fun _ =>
       inr {| Api.http_status := code2; Api.json_body := inr submissions |} |}.

Definition tourist : UserInfo :=
  {| handle := "tourist"; rating := Some 3800%Z; maxRating := Some 4000%Z |}.

(** ** The kernel's binary64 numbers, to validate [Double] *)

Definition Q_of_float (f : float) : option Q :=
  match Prim2SF f with
  | S754_zero _ => Some 0%Q
  | S754_finite s m e =>
      Some (Qred ((if s then -1 else 1) * inject_Z (Z.pos m) * 2 ^ e))
  | _ => None
  end.

Definition float_of_nat (n : nat) : float :=
  PrimFloat.of_uint63 (Uint63.of_Z (Z.of_nat n)).

(** [(k / n) * 100] on the kernel's floats and in [Double] give the same
    number. *)
Definition percentage_agrees (k n : nat) : bool :=
  match Q_of_float (PrimFloat.mul (PrimFloat.div (float_of_nat k) (float_of_nat n))
                                  (float_of_nat 100)) with
  | Some q => Qeq_bool q (Double.mul (Double.div (Double.of_nat k) (Double.of_nat n)) 100)
  | None => false
  end.

(** ** Numbers as text

    A number field of a payload is an integer literal, which [JSON.parse]
    turns into the nearest double; a template literal and a React text node
    print it with [Number::toString]: the shortest decimal digits that
    identify the double, written in full below [10^21] and in exponent form
    from there on. *)
Module Number.

(** Whether the integer [c] denotes the double whose value is [x]. *)
Definition rounds_to (c x : Z) : bool :=
  Qeq_bool (Double.round (inject_Z c)) (inject_Z x).

(** The integer with the fewest significant digits that denotes the double
    [x], itself an integer with [d] digits; [k] is the number of digits
    tried.  Of two candidates the closer to [x] is taken, the even one on a
    tie. *)
Fixpoint shortest (fuel : nat) (k d x : Z) : Z :=
  match fuel with
  | O => x
  | S fuel' =>
      if (d <=? k)%Z then x else
      let p := (10 ^ (d - k))%Z in
      let lo := (x / p * p)%Z in
      let hi := (lo + p)%Z in
      match rounds_to lo x, rounds_to hi x with
      | true, true =>
          if (x - lo <? hi - x)%Z then lo
          else if (hi - x <? x - lo)%Z then hi
          else if Z.even (x / p) then lo else hi
      | true, false => lo
      | false, true => hi
      | false, false => shortest fuel' (k + 1)%Z d x
      end
  end.

Fixpoint drop_zeros (s : string) : string :=
  match s with
  | String "0" s' => drop_zeros s'
  | _ => s
  end.

(** The digits of [s] without the zeros at its end. *)
Definition strip_zeros (s : string) : string :=
  String.rev (drop_zeros (String.rev s)).

(** [d.ddd e+n] *)
Definition exponent_form (v : Z) : string :=
  let n := Z.of_nat (String.length (pretty v)) in
  match strip_zeros (pretty v) with
  | String c EmptyString => String c ("e+" +:+ pretty (n - 1)%Z)
  | String c rest => String c ("." +:+ rest +:+ "e+" +:+ pretty (n - 1)%Z)
  | EmptyString => "0"
  end.

(** The text of a positive integer literal. *)
Definition positive_text (z : Z) : string :=
  let double := Double.round (inject_Z z) in
  if Qle_bool (2 ^ 1024) double then "Infinity" else
  let x := Qfloor double in
  let v := shortest 17 1 (Z.of_nat (String.length (pretty x))) x in
  if (v <? 10 ^ 21)%Z then pretty v else exponent_form v.

Definition toString (z : Z) : string :=
  match z with
  | Z0 => "0"
  | Zpos _ => positive_text z
  | Zneg _ => "-" +:+ positive_text (- z)
  end.
End Number.

(** [Number.isSafeInteger]: the integers every one of which is a double. *)
Definition safe_integer (z : Z) : Prop := (Z.abs z < 2 ^ 53)%Z.

Definition safe_number (n : option Z) : Prop :=
  match n with
  | Some z => safe_integer z
  | None => True
  end.

(** ** Presentation helpers of the page *)

(** A number or [undefined] used as a condition ([!rating],
    [if (submission.contestId)], [rating || 'Unrated']): [undefined] and [0]
    are falsy. *)
Definition number_truthy (n : option Z) : bool :=
  match n with
  | Some n => negb (n =? 0)%Z
  | None => false
  end.

(** A number or [undefined] inside a template literal or a text node. *)
Definition number_text (n : option Z) : string :=
  match n with
  | Some n => Number.toString n
  | None => "undefined"
  end.

Definition getRatingClass (rating : option Z) : string :=
  if negb (number_truthy rating) then "cf-rating-newbie" else
  let rating := default 0%Z rating in
  if (rating <? 1200)%Z then "cf-rating-newbie" else
  if (rating <? 1400)%Z then "cf-rating-pupil" else
  if (rating <? 1600)%Z then "cf-rating-specialist" else
  if (rating <? 1900)%Z then "cf-rating-expert" else
  if (rating <? 2100)%Z then "cf-rating-candidate-master" else
  if (rating <? 2400)%Z then "cf-rating-master" else
  "cf-rating-grandmaster".

(** The variant of the Tailwind pages. *)
Definition getRatingColor (rating : option Z) : string :=
  if negb (number_truthy rating) then "text-gray-500" else
  let rating := default 0%Z rating in
  if (rating <? 1200)%Z then "text-gray-600" else
  if (rating <? 1400)%Z then "text-green-600" else
  if (rating <? 1600)%Z then "text-cyan-600" else
  if (rating <? 1900)%Z then "text-blue-600" else
  if (rating <? 2100)%Z then "text-purple-600" else
  if (rating <? 2400)%Z then "text-orange-600" else
  "text-red-600".

(** [{userInfo.rating || 'Unrated'}] *)
Definition rating_label (rating : option Z) : string :=
  if number_truthy rating then number_text rating else "Unrated".

Definition getSubmissionUrl (submission : Submission) : string :=
  if number_truthy (contestId submission)
  then "https://codeforces.com/contest/" +:+ number_text (contestId submission)
       +:+ "/submission/" +:+ Number.toString (id submission)
  else "https://codeforces.com/problemset/submission/"
       +:+ Number.toString (id submission).

Definition getProblemUrl (submission : Submission) : string :=
  if number_truthy (problem_contestId (problem submission))
  then "https://codeforces.com/contest/"
       +:+ number_text (problem_contestId (problem submission))
       +:+ "/problem/" +:+ problem_index (problem submission)
  else "https://codeforces.com/problemset/problem/"
       +:+ number_text (problem_contestId (problem submission))
       +:+ "/" +:+ problem_index (problem submission).

(** The condition under which the table of skipped submissions is rendered:
    [result.isCheat && result.suspiciousSubmissions.length > 0]. *)
Definition shows_table (result : AnalysisResult) : bool :=
  isCheat result && bool_decide (0 < length (suspiciousSubmissions result)).

(** The classes [getRatingClass] returns, lowest tier first. *)
Definition rating_classes : list string :=
  ["cf-rating-newbie"; "cf-rating-pupil"; "cf-rating-specialist"; "cf-rating-expert";
   "cf-rating-candidate-master"; "cf-rating-master"; "cf-rating-grandmaster"].

(** The position of a class in [rating_classes]. *)
Definition tier (class : string) : option nat :=
  fst <$> list_find (fun c => c = class) rating_classes.

(** A string all of whose characters satisfy [P]. *)
Fixpoint all_chars (P : ascii -> bool) (s : string) : bool :=
  match s with
  | String c s' => P c && all_chars P s'
  | EmptyString => true
  end.

(** The characters of a printed integer: the digits and the sign. *)
Definition is_number_char (c : ascii) : bool :=
  match c with
  | "0" | "1" | "2" | "3" | "4" | "5" | "6" | "7" | "8" | "9" | "-" => true
  | _ => false
  end%char.

(** The characters [Number::toString] can print for an integer: those of a
    printed integer, the point and the exponent mark, and the letters of
    ["Infinity"]. *)
Definition is_text_char (c : ascii) : bool :=
  is_number_char c ||
  match c with
  | "." | "e" | "+" | "I" | "n" | "f" | "i" | "t" | "y" => true
  | _ => false
  end%char.

(** Whether a string starts, or ends, with white space. *)
Definition starts_with_white_space (s : string) : bool :=
  match s with
  | String c _ => Js.is_white_space c
  | EmptyString => false
  end.

Definition ends_with_white_space (s : string) : bool :=
  starts_with_white_space (String.rev s).

(** The errors passed to [console.error], in order. *)
Definition logged_errors (w : World) : list JsError :=
  omap (fun ev => match ev with ConsoleError _ e => Some e | _ => None end) (events w).


(** * Properties *)

(** ** Classification and counts *)

Lemma skipped_submissions_cons sub rest :
  skipped_submissions (sub :: rest) =
    if decide (is_skipped sub)
    then sub :: skipped_submissions rest
    else skipped_submissions rest.
Proof. unfold skipped_submissions. apply filter_cons. Qed.

Lemma skip_count_filter submissions :
  length (skipped_submissions submissions) = skip_count submissions.
Proof.
  induction submissions as [|sub rest IH]; [reflexivity|].
  rewrite skipped_submissions_cons. cbn [skip_count].
  destruct (decide (is_skipped sub)) as [Hs|Hs]; unfold is_skipped in Hs.
  - rewrite Hs, String.eqb_refl. cbn. now rewrite IH.
  - destruct (verdict sub) as [v|]; [|exact IH].
    destruct (String.eqb_spec v "SKIPPED") as [->|_]; [now destruct Hs | exact IH].
Qed.

(** C1: a submission belongs to the suspicious partition exactly when it is
    a fetched submission whose verdict is present and equal to ['SKIPPED'];
    a submission with another verdict, or with none, is not in it; and
    [isCheat] holds exactly when the count of suspicious submissions is
    positive. *)
Theorem classification_by_verdict (submissions : list Submission) :
  (forall sub, sub ∈ skipped_submissions submissions <->
               sub ∈ submissions /\ verdict sub = Some "SKIPPED") /\
  (forall sub v, verdict sub = Some v -> v <> "SKIPPED" ->
                 sub ∉ skipped_submissions submissions) /\
  (forall sub, verdict sub = None -> sub ∉ skipped_submissions submissions) /\
  skippedSubmissions (analysisResult submissions)
    = length (skipped_submissions submissions) /\
  (isCheat (analysisResult submissions) = true <->
   0 < skippedSubmissions (analysisResult submissions)).
Proof.
  assert (Hin : forall sub, sub ∈ skipped_submissions submissions <->
                            sub ∈ submissions /\ verdict sub = Some "SKIPPED").
  { intros sub. unfold skipped_submissions. rewrite list_elem_of_filter.
    unfold is_skipped. tauto. }
  split; [exact Hin|]. repeat split.
  - intros sub v Hv Hne [_ Hs]%Hin. congruence.
  - intros sub Hv [_ Hs]%Hin. congruence.
  - cbn. intros H. now apply bool_decide_eq_true in H.
  - cbn. intros H. now apply bool_decide_eq_true.
Qed.

(** C2: the total is the length of the fetched list, the suspicious count is
    the true number of ['SKIPPED'] submissions in the whole list (whatever the
    ten-entry cap keeps for display), and it never exceeds the total. *)
Theorem counts_are_exact (submissions : list Submission) :
  totalSubmissions (analysisResult submissions) = length submissions /\
  skippedSubmissions (analysisResult submissions) = skip_count submissions /\
  skippedSubmissions (analysisResult submissions)
    <= totalSubmissions (analysisResult submissions).
Proof.
  split; [reflexivity|]. split.
  - cbn. apply skip_count_filter.
  - cbn. unfold skipped_submissions. apply length_filter.
Qed.

(** The count and the displayed sample are different things: past ten
    suspicious submissions the sample stops growing, the count does not. *)
Lemma sample_smaller_than_count (submissions : list Submission) :
  10 < skip_count submissions ->
  length (suspiciousSubmissions (analysisResult submissions)) = 10 /\
  skippedSubmissions (analysisResult submissions) = skip_count submissions.
Proof.
  intros H. rewrite <- skip_count_filter in *. cbn.
  rewrite length_take. split; [lia | reflexivity].
Qed.

(** The filter of the code computes the suspicious partition. *)
Lemma skipped_submissions_partition (submissions : list Submission) :
  skipped_submissions submissions = suspicious_partition submissions.
Proof.
  induction submissions as [|sub rest IH]; [reflexivity|].
  rewrite skipped_submissions_cons. cbn [suspicious_partition].
  destruct (decide (is_skipped sub)) as [Hs|Hs]; unfold is_skipped in Hs.
  - rewrite Hs, String.eqb_refl. now rewrite IH.
  - destruct (verdict sub) as [v|]; [|exact IH].
    destruct (String.eqb_spec v "SKIPPED") as [->|_]; [now destruct Hs | exact IH].
Qed.

(** The first [n] skipped submissions of a list are all the skipped
    submissions of a front part of it, and that front part is the whole list
    when fewer than [n] are found. *)
Lemma sample_front (n : nat) (submissions : list Submission) :
  exists front back,
    submissions = front ++ back /\
    take n (skipped_submissions submissions) = skipped_submissions front /\
    (skip_count front = n \/ back = []).
Proof.
  revert n. induction submissions as [|sub rest IH]; intros n.
  - exists [], []. split; [reflexivity|]. split; [now destruct n | now right].
  - destruct n as [|n].
    + exists [], (sub :: rest). split; [reflexivity|]. split; [reflexivity | now left].
    + rewrite skipped_submissions_cons.
      destruct (decide (is_skipped sub)) as [Hs|Hs].
      * destruct (IH n) as (front & back & -> & Ht & Hn).
        exists (sub :: front), back. split; [reflexivity|].
        rewrite skipped_submissions_cons, decide_True by exact Hs.
        cbn [take]. rewrite Ht. split; [reflexivity|].
        destruct Hn as [Hn|Hn]; [left | now right].
        rewrite <- skip_count_filter in *. rewrite skipped_submissions_cons.
        rewrite decide_True by exact Hs. cbn. now rewrite Hn.
      * destruct (IH (S n)) as (front & back & -> & Ht & Hn).
        exists (sub :: front), back. split; [reflexivity|].
        rewrite skipped_submissions_cons, decide_False by exact Hs.
        split; [exact Ht|].
        destruct Hn as [Hn|Hn]; [left | now right].
        rewrite <- skip_count_filter in *. rewrite skipped_submissions_cons.
        now rewrite decide_False by exact Hs.
Qed.

(** C3: with [K] fetched submissions whose verdict is ['SKIPPED'], the
    displayed sample has [min K 10] entries and is the first [min K 10]
    elements of the suspicious partition, hence a prefix of it; every entry
    carries the verdict ['SKIPPED']; and the entries keep the order of the
    fetched list: the sample is made of the skipped submissions of a front part
    of the fetched list, all of them, and that front part is the whole list
    unless ten were found. *)
Theorem sample_is_prefix (submissions : list Submission) :
  let K := skip_count submissions in
  let sample := suspiciousSubmissions (analysisResult submissions) in
  length sample = min K 10 /\
  sample = take (min K 10) (suspicious_partition submissions) /\
  sample `prefix_of` suspicious_partition submissions /\
  sample `sublist_of` submissions /\
  (forall sub, sub ∈ sample -> verdict sub = Some "SKIPPED") /\
  (exists front back,
     submissions = front ++ back /\
     sample `sublist_of` front /\
     skip_count front = length sample /\
     (length sample = 10 \/ back = [])).
Proof.
  cbn zeta. unfold analysisResult. cbn [suspiciousSubmissions].
  rewrite <- skip_count_filter. rewrite <- skipped_submissions_partition.
  set (skipped := skipped_submissions submissions).
  split; [|split; [|split; [|split; [|split]]]].
  - rewrite length_take. lia.
  - destruct (decide (length skipped <= 10)) as [Hle|Hgt].
    + rewrite Nat.min_l by exact Hle. now rewrite !take_ge by lia.
    + now rewrite Nat.min_r by lia.
  - apply prefix_take.
  - transitivity skipped; [apply sublist_take | apply sublist_filter].
  - intros sub Hin.
    assert (Hs : sub ∈ skipped) by (revert Hin; apply subseteq_take).
    apply list_elem_of_filter in Hs as [Hs _]. exact Hs.
  - destruct (sample_front 10 submissions) as (front & back & E & Ht & Hn).
    exists front, back. fold skipped in Ht. rewrite Ht.
    split; [exact E|]. split; [apply sublist_filter|].
    split; [symmetry; apply skip_count_filter|].
    destruct Hn as [Hn|Hn]; [left | now right].
    now rewrite skip_count_filter.
Qed.
(** ** Rounding to binary64 *)
Section DoubleFacts.
Import Double.
Local Open Scope Q_scope.

Lemma pow2_pos (z : Z) : 0 < 2 ^ z.
Proof. apply Qpower_0_lt. reflexivity. Qed.

Lemma pow2_add (a b : Z) : 2 ^ (a + b) == 2 ^ a * 2 ^ b.
Proof. apply Qpower_plus. discriminate. Qed.

Lemma pow2_le (a b : Z) : (a <= b)%Z -> 2 ^ a <= 2 ^ b.
Proof. intros H. apply Qpower_le_compat_l; [exact H | discriminate]. Qed.

Lemma pow2_inject (n : Z) : (0 <= n)%Z -> inject_Z (2 ^ n) == 2 ^ n.
Proof. intros H. now rewrite Zpower_Qpower. Qed.

(** A positive rational lies in the binade that [binade] names. *)
Lemma binade_spec (q : Q) :
  0 < q -> 2 ^ binade q <= q /\ q < 2 ^ (binade q + 1).
Proof.
  destruct q as [a b]. intros Hq.
  assert (Ha : (0 < a)%Z) by (unfold Qlt in Hq; cbn in Hq; lia).
  pose proof (Z.log2_spec a Ha) as [Ha1 Ha2].
  pose proof (Z.log2_spec (Z.pos b) (Pos2Z.is_pos b)) as [Hb1 Hb2].
  pose proof (Z.log2_nonneg a) as Hla.
  pose proof (Z.log2_nonneg (Z.pos b)) as Hlb.
  set (la := Z.log2 a) in *. set (lb := Z.log2 (Z.pos b)) in *.
  assert (Hab : (a # b) * inject_Z (Z.pos b) == inject_Z a).
  { rewrite (Qmake_Qdiv a b). field. discriminate. }
  assert (Hbpos : 0 < inject_Z (Z.pos b)) by reflexivity.
  (* 2^(la-lb-1) < q < 2^(la-lb+1) *)
  assert (Hup : (a # b) < 2 ^ (la - lb + 1)).
  { apply (Qmult_lt_r _ _ (2 ^ lb) (pow2_pos lb)).
    rewrite <- pow2_add. replace (la - lb + 1 + lb)%Z with (Z.succ la) by lia.
    apply Qle_lt_trans with ((a # b) * inject_Z (Z.pos b)).
    - apply Qmult_le_l; [exact Hq|]. rewrite <- pow2_inject by exact Hlb.
      rewrite <- Zle_Qle. exact Hb1.
    - rewrite Hab, <- pow2_inject by lia. rewrite <- Zlt_Qlt. exact Ha2. }
  assert (Hlo : 2 ^ (la - lb - 1) <= (a # b)).
  { apply (Qmult_le_r _ _ (2 ^ (lb + 1)) (pow2_pos _)).
    rewrite <- pow2_add. replace (la - lb - 1 + (lb + 1))%Z with la by lia.
    apply Qle_trans with ((a # b) * inject_Z (Z.pos b)).
    - rewrite Hab, <- pow2_inject by lia. rewrite <- Zle_Qle. exact Ha1.
    - apply Qmult_le_l; [exact Hq|]. rewrite <- pow2_inject by lia.
      rewrite <- Zle_Qle. change (lb + 1)%Z with (Z.succ lb). lia. }
  unfold binade. cbn [Qnum Qden]. fold la lb.
  destruct (Qle_bool (2 ^ (la - lb)) (a # b)) eqn:Hc.
  - apply Qle_bool_iff in Hc. split; assumption.
  - split; [exact Hlo|].
    replace (la - lb - 1 + 1)%Z with (la - lb)%Z by lia.
    apply Qnot_le_lt. intros Hle. apply Qle_bool_iff in Hle. congruence.
Qed.

Lemma binade_le (q : Q) (j : Z) : 0 < q -> q <= 2 ^ j -> (binade q <= j)%Z.
Proof.
  intros Hq Hle. destruct (binade_spec q Hq) as [Hlo _].
  apply (Qpower_le_compat_l_inv 2); [|reflexivity].
  now apply Qle_trans with q.
Qed.

(** Rounding to the nearest integer never crosses an integer. *)
Lemma nearest_even_le (x : Q) (m : Z) :
  x <= inject_Z m -> (nearest_even x <= m)%Z.
Proof.
  intros Hx. unfold nearest_even.
  pose proof (Qfloor_resp_le _ _ Hx) as Hf. rewrite Qfloor_Z in Hf.
  pose proof (Qfloor_le x) as Hfx.
  assert (Hup : 0 < x - inject_Z (Qfloor x) -> (Qfloor x + 1 <= m)%Z).
  { intros Hpos. destruct (Z.eq_dec (Qfloor x) m) as [E|]; [|lia].
    rewrite E in Hpos. lra. }
  destruct (Qcompare_spec (x - inject_Z (Qfloor x)) (1 # 2)) as [E|L|G].
  - destruct (Z.even (Qfloor x)); [exact Hf|]. apply Hup. rewrite E. reflexivity.
  - exact Hf.
  - apply Hup. lra.
Qed.

Lemma nearest_even_ge (x : Q) (m : Z) :
  inject_Z m <= x -> (m <= nearest_even x)%Z.
Proof.
  intros Hx. unfold nearest_even.
  pose proof (Qfloor_resp_le _ _ Hx) as Hf. rewrite Qfloor_Z in Hf.
  destruct (Qcompare (x - inject_Z (Qfloor x)) (1 # 2));
    [destruct (Z.even (Qfloor x))| |]; lia.
Qed.

Lemma round_pos_eq (q : Q) :
  round_pos q ==
    inject_Z (nearest_even (q * 2 ^ (52 - binade q))) * 2 ^ (binade q - 52).
Proof. unfold round_pos. apply Qred_correct. Qed.

(** A double [m * 2^k] on the grid of [q]'s binade bounds the rounding of
    every [q] below it: rounding is monotone at representable points. *)
Lemma round_pos_le (q : Q) (m k : Z) :
  0 < q -> q <= inject_Z m * 2 ^ k -> (binade q <= k + 52)%Z ->
  round_pos q <= inject_Z m * 2 ^ k.
Proof.
  intros Hq Hle He. rewrite round_pos_eq. set (e := binade q) in *.
  assert (Hn : (nearest_even (q * 2 ^ (52 - e)) <= m * 2 ^ (k + 52 - e))%Z).
  { apply nearest_even_le. rewrite inject_Z_mult, pow2_inject by lia.
    replace (k + 52 - e)%Z with (k + (52 - e))%Z by lia.
    rewrite pow2_add, Qmult_assoc.
    apply Qmult_le_compat_r; [exact Hle | apply Qlt_le_weak, pow2_pos]. }
  apply Qle_trans with (inject_Z (m * 2 ^ (k + 52 - e)) * 2 ^ (e - 52)).
  - apply Qmult_le_compat_r; [|apply Qlt_le_weak, pow2_pos].
    rewrite <- Zle_Qle. exact Hn.
  - rewrite inject_Z_mult, pow2_inject by lia. rewrite <- Qmult_assoc, <- pow2_add.
    replace (k + 52 - e + (e - 52))%Z with k by lia. apply Qle_refl.
Qed.

Lemma round_pos_nonneg (q : Q) : 0 < q -> 0 <= round_pos q.
Proof.
  intros Hq. rewrite round_pos_eq.
  apply Qmult_le_0_compat; [|apply Qlt_le_weak, pow2_pos].
  change 0 with (inject_Z 0). rewrite <- Zle_Qle. apply nearest_even_ge.
  apply Qmult_le_0_compat; [now apply Qlt_le_weak | apply Qlt_le_weak, pow2_pos].
Qed.

Lemma round_nonneg (q : Q) : 0 <= q -> 0 <= round q.
Proof.
  intros Hq. unfold round. destruct (Qcompare_spec q 0) as [E|L|G].
  - apply Qle_refl.
  - lra.
  - now apply round_pos_nonneg.
Qed.

Lemma round_le (q : Q) (m k j : Z) :
  0 <= q -> q <= inject_Z m * 2 ^ k -> inject_Z m * 2 ^ k <= 2 ^ j ->
  (j <= k + 52)%Z ->
  round q <= inject_Z m * 2 ^ k.
Proof.
  intros Hq Hle Hj Hjk. unfold round. destruct (Qcompare_spec q 0) as [E|L|G].
  - lra.
  - lra.
  - apply round_pos_le; [exact G | exact Hle |].
    assert (binade q <= j)%Z; [|lia].
    apply binade_le; [exact G | lra].
Qed.

Lemma div_range (k n : nat) :
  (k <= n)%nat -> (0 < n)%nat -> 0 <= div (of_nat k) (of_nat n) <= 1.
Proof.
  intros Hkn Hn. unfold div, of_nat.
  assert (Hn' : 0 < inject_Z (Z.of_nat n)).
  { change 0 with (inject_Z 0). rewrite <- Zlt_Qlt. lia. }
  assert (Hk' : 0 <= inject_Z (Z.of_nat k)).
  { change 0 with (inject_Z 0). rewrite <- Zle_Qle. lia. }
  assert (Hkn' : inject_Z (Z.of_nat k) <= inject_Z (Z.of_nat n)).
  { rewrite <- Zle_Qle. lia. }
  assert (H0 : 0 <= inject_Z (Z.of_nat k) / inject_Z (Z.of_nat n)).
  { apply Qle_shift_div_l; [exact Hn' | lra]. }
  assert (H1 : inject_Z (Z.of_nat k) / inject_Z (Z.of_nat n) <= 1).
  { apply Qle_shift_div_r; [exact Hn' | lra]. }
  split; [now apply round_nonneg|].
  change 1 with (inject_Z 1 * 2 ^ 0).
  apply (round_le _ 1 0 0); [exact H0 | exact H1 | apply Qle_refl | lia].
Qed.

Lemma mul_100_range (x : Q) : 0 <= x <= 1 -> 0 <= mul x 100 <= 100.
Proof.
  intros [H0 H1]. unfold mul. split; [apply round_nonneg; lra|].
  assert (E : 100 == inject_Z 25 * 2 ^ 2) by reflexivity.
  rewrite E at 2. apply (round_le _ 25 2 7).
  - lra.
  - rewrite <- E. lra.
  - discriminate.
  - lia.
Qed.

(** *** Accuracy: each rounding moves a value by a relative 2^-53 at most *)

Lemma nearest_even_error (x : Q) :
  x - (1 # 2) <= inject_Z (nearest_even x) <= x + (1 # 2).
Proof.
  unfold nearest_even.
  pose proof (Qfloor_le x) as Hlo. pose proof (Qlt_floor x) as Hhi.
  rewrite inject_Z_plus in Hhi. change (inject_Z 1) with 1 in Hhi.
  destruct (Qcompare_spec (x - inject_Z (Qfloor x)) (1 # 2)) as [E|L|G].
  - destruct (Z.even (Qfloor x)).
    + lra.
    + rewrite inject_Z_plus. change (inject_Z 1) with 1. lra.
  - lra.
  - rewrite inject_Z_plus. change (inject_Z 1) with 1. lra.
Qed.

Lemma round_pos_error (q : Q) :
  0 < q -> q * (1 - 2 ^ (-53)) <= round_pos q <= q * (1 + 2 ^ (-53)).
Proof.
  intros Hq. rewrite round_pos_eq. set (e := binade q).
  destruct (binade_spec q Hq) as [Hlo _]. fold e in Hlo.
  destruct (nearest_even_error (q * 2 ^ (52 - e))) as [H1 H2].
  set (n := inject_Z (nearest_even (q * 2 ^ (52 - e)))) in *.
  assert (Hs : 0 <= 2 ^ (e - 52)) by apply Qlt_le_weak, pow2_pos.
  apply (Qmult_le_compat_r _ _ _ H1) in Hs as H1'.
  apply (Qmult_le_compat_r _ _ _ H2) in Hs as H2'.
  assert (Eq1 : q * 2 ^ (52 - e) * 2 ^ (e - 52) == q).
  { rewrite <- Qmult_assoc, <- pow2_add.
    replace (52 - e + (e - 52))%Z with 0%Z by lia. change (2 ^ 0) with 1. ring. }
  assert (Eh : (1 # 2) * 2 ^ (e - 52) == 2 ^ e * 2 ^ (-53)).
  { replace (e - 52)%Z with (e + (-53) + 1)%Z by lia.
    rewrite !pow2_add. change (2 ^ 1) with 2. field. }
  assert (Hu : 0 <= 2 ^ (-53)) by apply Qlt_le_weak, pow2_pos.
  pose proof (Qmult_le_compat_r _ _ _ Hlo Hu) as Hulp.
  split.
  - apply Qle_trans with ((q * 2 ^ (52 - e) - (1 # 2)) * 2 ^ (e - 52)); [|exact H1'].
    assert (Ed : (q * 2 ^ (52 - e) - (1 # 2)) * 2 ^ (e - 52)
                 == q * 2 ^ (52 - e) * 2 ^ (e - 52) - (1 # 2) * 2 ^ (e - 52)) by ring.
    rewrite Ed, Eq1, Eh. lra.
  - apply Qle_trans with ((q * 2 ^ (52 - e) + (1 # 2)) * 2 ^ (e - 52)); [exact H2'|].
    assert (Ed : (q * 2 ^ (52 - e) + (1 # 2)) * 2 ^ (e - 52)
                 == q * 2 ^ (52 - e) * 2 ^ (e - 52) + (1 # 2) * 2 ^ (e - 52)) by ring.
    rewrite Ed, Eq1, Eh. lra.
Qed.

Lemma round_error (q : Q) :
  0 <= q -> q * (1 - 2 ^ (-53)) <= round q <= q * (1 + 2 ^ (-53)).
Proof.
  intros Hq. unfold round. destruct (Qcompare_spec q 0) as [E|L|G].
  - rewrite E. split; discriminate.
  - lra.
  - now apply round_pos_error.
Qed.

(** Two roundings: the computed percentage is the exact one up to a
    relative 2^-51. *)
Lemma percentage_error (t : Q) :
  0 <= t ->
  100 * t * (1 - 2 ^ (-51)) <= mul (round t) 100 <= 100 * t * (1 + 2 ^ (-51)).
Proof.
  intros Ht. destruct (round_error t Ht) as [A1 A2].
  pose proof (round_nonneg t Ht) as Hr.
  assert (Hr100 : 0 <= round t * 100) by lra.
  destruct (round_error _ Hr100) as [B1 B2]. fold (mul (round t) 100) in B1, B2.
  set (p := mul (round t) 100) in *. set (x := round t) in *.
  assert (Hlo : 0 <= 1 - 2 ^ (-53)) by discriminate.
  assert (Hhi : 0 <= 1 + 2 ^ (-53)) by discriminate.
  pose proof (Qmult_le_compat_r _ _ _ A1 Hlo) as C1.
  pose proof (Qmult_le_compat_r _ _ _ A2 Hhi) as C2.
  assert (D1 : t * (1 - 2 ^ (-51)) <= t * (1 - 2 ^ (-53)) * (1 - 2 ^ (-53))).
  { rewrite <- Qmult_assoc, !(Qmult_comm t).
    apply Qmult_le_compat_r; [vm_compute; discriminate | exact Ht]. }
  assert (D2 : t * (1 + 2 ^ (-53)) * (1 + 2 ^ (-53)) <= t * (1 + 2 ^ (-51))).
  { rewrite <- Qmult_assoc, !(Qmult_comm t).
    apply Qmult_le_compat_r; [vm_compute; discriminate | exact Ht]. }
  split; lra.
Qed.
End DoubleFacts.

(** The model of binary64 and the kernel's own floats compute the same
    percentage for every count up to a total of 64. *)
Lemma double_agrees_with_binary64 :
  forallb (fun n => forallb (fun k => percentage_agrees k n) (seq 0 (S n))) (seq 1 64)
    = true.
Proof. vm_compute. reflexivity. Qed.

(** ** The percentage *)

(** C4: with [N] fetched submissions of which [K] are skipped, the percentage
    is [K / N * 100] evaluated in double arithmetic when [N > 0] and exactly
    [0] when [N = 0]; it always lies in [[0, 100]]; and it is the real
    quotient [100 K / N] up to the two roundings. *)
Theorem percentage_formula_and_range (submissions : list Submission) :
  let N := length submissions in
  let K := skip_count submissions in
  let percentage := skippedPercentage (analysisResult submissions) in
  (0 < N ->
   percentage = Double.mul (Double.div (Double.of_nat K) (Double.of_nat N)) 100) /\
  (N = 0 -> percentage = 0%Q) /\
  (0 <= percentage <= 100)%Q /\
  (0 < N ->
   (100 * (inject_Z (Z.of_nat K) / inject_Z (Z.of_nat N)) * (1 - 2 ^ (-51)) <= percentage
    /\ percentage
       <= 100 * (inject_Z (Z.of_nat K) / inject_Z (Z.of_nat N)) * (1 + 2 ^ (-51)))%Q).
Proof.
  cbn zeta. rewrite <- skip_count_filter.
  pose proof (length_filter is_skipped submissions) as Hle.
  fold (skipped_submissions submissions) in Hle.
  unfold analysisResult. cbn [skippedPercentage].
  set (K := length (skipped_submissions submissions)) in *.
  set (N := length submissions) in *.
  destruct (decide (0 < N)) as [Hpos|Hzero].
  - split; [reflexivity|]. split; [lia|]. split.
    + apply mul_100_range. now apply div_range.
    + intros _. apply percentage_error.
      apply Qle_shift_div_l.
      * change 0%Q with (inject_Z 0). rewrite <- Zlt_Qlt. lia.
      * rewrite Qmult_0_l. change 0%Q with (inject_Z 0). rewrite <- Zle_Qle. lia.
  - split; [lia|]. split; [reflexivity|]. split; [split; discriminate | lia].
Qed.

(** ** The worked example *)

(** C9, as the code has it: for every list of twelve submissions of which
    eight are skipped, the count is 8 out of 12, the percentage prints as
    ["66.7"] with one decimal, and the displayed sample is the whole
    suspicious partition, in the order of the fetched list, nothing cut. *)
Theorem twelve_with_eight_skipped (submissions : list Submission) :
  length submissions = 12 ->
  skip_count submissions = 8 ->
  totalSubmissions (analysisResult submissions) = 12 /\
  skippedSubmissions (analysisResult submissions) = 8 /\
  Js.toFixed1 (skippedPercentage (analysisResult submissions)) = "66.7" /\
  suspiciousSubmissions (analysisResult submissions) = skipped_submissions submissions /\
  length (suspiciousSubmissions (analysisResult submissions)) = 8 /\
  suspiciousSubmissions (analysisResult submissions) `sublist_of` submissions.
Proof.
  intros HN HK. rewrite <- skip_count_filter in HK.
  unfold analysisResult.
  cbn [totalSubmissions skippedSubmissions skippedPercentage suspiciousSubmissions].
  rewrite HN, HK, take_ge by lia. repeat split.
  - exact HK.
  - apply sublist_filter.
Qed.

Lemma twelve_with_eight_skipped_witness :
  totalSubmissions (analysisResult eight_of_twelve) = 12 /\
  skippedSubmissions (analysisResult eight_of_twelve) = 8 /\
  Js.toFixed1 (skippedPercentage (analysisResult eight_of_twelve)) = "66.7" /\
  suspiciousSubmissions (analysisResult eight_of_twelve)
    = skipped_submissions eight_of_twelve /\
  length (suspiciousSubmissions (analysisResult eight_of_twelve)) = 8 /\
  suspiciousSubmissions (analysisResult eight_of_twelve) `sublist_of` eight_of_twelve.
Proof. apply (twelve_with_eight_skipped eight_of_twelve); reflexivity. Defined.

(** C9 fails as stated: the positions the example lists are seven, not eight,
    and a list of twelve has no position 13.  Counting positions from 1 the
    described list has six skipped submissions (50.0 percent), counting from 0
    it has five (41.7 percent). *)
Lemma worked_example_as_described :
  length (worked_example 1) = 12 /\
  skippedSubmissions (analysisResult (worked_example 1)) = 6 /\
  Js.toFixed1 (skippedPercentage (analysisResult (worked_example 1))) = "50.0" /\
  length (worked_example 0) = 12 /\
  skippedSubmissions (analysisResult (worked_example 0)) = 5 /\
  Js.toFixed1 (skippedPercentage (analysisResult (worked_example 0))) = "41.7".
Proof. repeat split. Qed.
(** ** Trimming *)

Lemma trimStart_blank (s : string) : Js.trimStart s = "" <-> blank s = true.
Proof.
  induction s as [|c s IH]; cbn; [tauto|].
  destruct (Js.is_white_space c); cbn; [exact IH|]. split; discriminate.
Qed.

Lemma trimStart_head (s : string) :
  Js.trimStart s = "" \/
  exists c t, Js.trimStart s = String c t /\ Js.is_white_space c = false.
Proof.
  induction s as [|c s IH]; cbn; [now left|].
  destruct (Js.is_white_space c) eqn:Hc; [exact IH|]. right. eauto.
Qed.

Lemma blank_rev_app (s t : string) :
  blank (String.rev_app s t) = blank s && blank t.
Proof.
  revert t. induction s as [|c s IH]; intros t; cbn; [reflexivity|].
  rewrite IH. cbn. destruct (Js.is_white_space c), (blank s), (blank t); reflexivity.
Qed.

Lemma rev_app_empty (s t : string) : String.rev_app s t = "" -> s = "" /\ t = "".
Proof.
  revert t. induction s as [|c s IH]; intros t; cbn; [tauto|].
  intros [_ [=]]%IH.
Qed.

(** [!username.trim()] holds exactly of the blank user names. *)
Lemma trim_blank (s : string) : Js.trim s = "" <-> blank s = true.
Proof.
  unfold Js.trim, Js.trimEnd, String.rev. split.
  - intros [H _]%rev_app_empty. apply trimStart_blank in H.
    rewrite blank_rev_app, andb_true_r in H.
    destruct (trimStart_head s) as [E|(c & t & E & Hc)].
    + now apply trimStart_blank.
    + rewrite E in H. cbn in H. rewrite Hc in H. discriminate.
  - intros H. apply trimStart_blank in H. rewrite H. reflexivity.
Qed.

(** ** The paths through [analyzeUser] *)

Ltac run_click :=
  unfold click, analyzeUser, analyzeUser_try, analyzeUser_catch, try_catch_finally,
    fetch, json, toast, console_error, setLoading, setResult, setUserInfo,
    update, emit, read, throw, ret, bind, settled, reported;
  cbn [snd fst page events username loading result userInfo app].

Section Paths.
Variable remote : Remote.
Variable p : Page.

Lemma not_blank_trim : blank (username p) = false -> Js.trim (username p) <> "".
Proof. intros H E%trim_blank. congruence. Qed.

Lemma click_blank :
  blank (username p) = true ->
  click remote p =
    {| page := p;
       events := [ShowToast {| title := "Error";
                               description := "Please enter a username";
                               variant := destructive |}] |}.
Proof.
  intros H%trim_blank. run_click. rewrite decide_True by exact H. reflexivity.
Qed.

Lemma click_profile_rejected (e : JsError) :
  blank (username p) = false ->
  user_info remote (user_info_url (username p)) = inl e ->
  click remote p =
    {| page := settled p None None;
       events := Fetch (user_info_url (username p)) :: reported e |}.
Proof.
  intros H%not_blank_trim Hr. run_click. rewrite decide_False by exact H.
  run_click. rewrite Hr. reflexivity.
Qed.

Lemma click_profile_not_json (code : Z) (e : JsError) :
  blank (username p) = false ->
  user_info remote (user_info_url (username p))
    = inr {| Api.http_status := code; Api.json_body := inl e |} ->
  click remote p =
    {| page := settled p None None;
       events := Fetch (user_info_url (username p)) :: reported e |}.
Proof.
  intros H%not_blank_trim Hr. run_click. rewrite decide_False by exact H.
  run_click. rewrite Hr. reflexivity.
Qed.

Lemma click_profile_failed (code : Z) (userData : Api.Envelope UserInfo) :
  blank (username p) = false ->
  user_info remote (user_info_url (username p))
    = inr {| Api.http_status := code; Api.json_body := inr userData |} ->
  Api.status userData <> Some "OK" ->
  click remote p =
    {| page := settled p None None;
       events := Fetch (user_info_url (username p))
         :: reported {| error_name := Error;
                        message := Js.or_else (Api.comment userData) "User not found" |} |}.
Proof.
  intros H%not_blank_trim Hr Hs. run_click. rewrite decide_False by exact H.
  run_click. rewrite Hr. cbn. rewrite decide_True by exact Hs. reflexivity.
Qed.

Section ProfileOk.
Variables (code : Z) (userData : Api.Envelope UserInfo).
Hypothesis Hname : blank (username p) = false.
Hypothesis Hinfo :
  user_info remote (user_info_url (username p))
    = inr {| Api.http_status := code; Api.json_body := inr userData |}.
Hypothesis Hok : Api.status userData = Some "OK".

Ltac run_profile :=
  run_click; rewrite (decide_False (P := Js.trim _ = _)) by exact (not_blank_trim Hname);
  run_click; rewrite Hinfo; cbn;
  rewrite (decide_False (P := Api.status userData <> _)) by (intros Hn; exact (Hn Hok));
  cbn.

Lemma click_history_rejected (e : JsError) :
  user_status remote (user_status_url (username p)) = inl e ->
  click remote p =
    {| page := settled p None (Api.result userData !! 0%nat);
       events := Fetch (user_info_url (username p))
         :: Fetch (user_status_url (username p)) :: reported e |}.
Proof. intros Hr. run_profile. rewrite Hr. reflexivity. Qed.

Lemma click_history_not_json (code' : Z) (e : JsError) :
  user_status remote (user_status_url (username p))
    = inr {| Api.http_status := code'; Api.json_body := inl e |} ->
  click remote p =
    {| page := settled p None (Api.result userData !! 0%nat);
       events := Fetch (user_info_url (username p))
         :: Fetch (user_status_url (username p)) :: reported e |}.
Proof. intros Hr. run_profile. rewrite Hr. reflexivity. Qed.

Lemma click_history_failed (code' : Z) (submissionsData : Api.Envelope Submission) :
  user_status remote (user_status_url (username p))
    = inr {| Api.http_status := code'; Api.json_body := inr submissionsData |} ->
  Api.status submissionsData <> Some "OK" ->
  click remote p =
    {| page := settled p None (Api.result userData !! 0%nat);
       events := Fetch (user_info_url (username p))
         :: Fetch (user_status_url (username p))
         :: reported {| error_name := Error;
                        message := Js.or_else (Api.comment submissionsData)
                                              "Failed to fetch submissions" |} |}.
Proof.
  intros Hr Hs. run_profile. rewrite Hr. cbn.
  rewrite decide_True by exact Hs. reflexivity.
Qed.

Lemma click_analysed (code' : Z) (submissionsData : Api.Envelope Submission) :
  user_status remote (user_status_url (username p))
    = inr {| Api.http_status := code'; Api.json_body := inr submissionsData |} ->
  Api.status submissionsData = Some "OK" ->
  let analysis := analysisResult (Api.result submissionsData) in
  click remote p =
    {| page := settled p (Some analysis) (Api.result userData !! 0%nat);
       events :=
         [Fetch (user_info_url (username p));
          Fetch (user_status_url (username p));
          ShowToast
            (if isCheat analysis
             then {| title := "Potential Cheater Detected!";
                     description := "Found " +:+ pretty (skippedSubmissions analysis)
                                    +:+ " skipped submissions";
                     variant := destructive |}
             else {| title := "Analysis Complete";
                     description := "No suspicious activity detected";
                     variant := None |})] |}.
Proof.
  intros Hr Hs analysis. run_profile. rewrite Hr. cbn.
  rewrite decide_False by (intros Hn; exact (Hn Hs)).
  subst analysis. cbn. destruct (bool_decide _); reflexivity.
Qed.
End ProfileOk.
End Paths.

Lemma urls_differ (a b : string) : user_info_url a <> user_status_url b.
Proof. vm_compute. discriminate. Qed.

(** With an accepted profile the history request is always issued, whatever
    it answers, and the first element of the profile list, if any, is kept. *)
Lemma click_profile_ok (remote : Remote) (p : Page) (code : Z)
    (userData : Api.Envelope UserInfo) :
  blank (username p) = false ->
  user_info remote (user_info_url (username p))
    = inr {| Api.http_status := code; Api.json_body := inr userData |} ->
  Api.status userData = Some "OK" ->
  userInfo (page (click remote p)) = Api.result userData !! 0%nat /\
  requests (click remote p)
    = [user_info_url (username p); user_status_url (username p)].
Proof.
  intros Hname Hinfo Hok.
  destruct (user_status remote (user_status_url (username p)))
    as [e|[code' [e|submissionsData]]] eqn:Hr.
  - rewrite (click_history_rejected _ _ _ _ Hname Hinfo Hok _ Hr). now split.
  - rewrite (click_history_not_json _ _ _ _ Hname Hinfo Hok _ _ Hr). now split.
  - destruct (decide (Api.status submissionsData = Some "OK")) as [Hs|Hs].
    + rewrite (click_analysed _ _ _ _ Hname Hinfo Hok _ _ Hr Hs). now split.
    + rewrite (click_history_failed _ _ _ _ Hname Hinfo Hok _ _ Hr Hs). now split.
Qed.

Lemma no_error_toast (pg : Page) (before : list Event) (b : bool) (t1 t2 : Toast) :
  title t1 <> "Error" -> title t2 <> "Error" ->
  (forall t, t ∈ toasts {| page := pg; events := before |} -> title t <> "Error") ->
  forall t,
    t ∈ toasts {| page := pg;
                  events := before ++ [ShowToast (if b then t1 else t2)] |} ->
    title t <> "Error".
Proof.
  intros H1 H2 Hb t. unfold toasts. cbn [events]. rewrite omap_app. cbn.
  intros [Ht | Ht%list_elem_of_singleton]%elem_of_app.
  - now apply Hb.
  - subst t. now destruct b.
Qed.

(** ** Input validation and failures *)

(** C5: a user name that is empty or made of white space only (empty once
    trimmed) is refused on the spot: the only effect is the error toast asking
    for a user name, no request is sent to either endpoint, and the page state
    is left as it was. *)
Theorem blank_handle_stops_locally (remote : Remote) (p : Page) :
  blank (username p) = true ->
  Js.trim (username p) = "" /\
  toasts (click remote p)
    = [{| title := "Error"; description := "Please enter a username";
          variant := destructive |}] /\
  requests (click remote p) = [] /\
  page (click remote p) = p.
Proof.
  intros H. split; [now apply trim_blank|].
  rewrite (click_blank remote p H). now repeat split.
Qed.

Lemma blank_handle_stops_locally_witness :
  Js.trim "  " = "" /\
  toasts (click (answering 200 (envelope "OK" None [tourist]) 200 (envelope "OK" None []))
                (typed "  "))
    = [{| title := "Error"; description := "Please enter a username";
          variant := destructive |}] /\
  requests (click (answering 200 (envelope "OK" None [tourist]) 200 (envelope "OK" None []))
                  (typed "  ")) = [] /\
  page (click (answering 200 (envelope "OK" None [tourist]) 200 (envelope "OK" None []))
              (typed "  ")) = typed "  ".
Proof.
  apply (blank_handle_stops_locally
           (answering 200 (envelope "OK" None [tourist]) 200 (envelope "OK" None []))
           (typed "  ")).
  reflexivity.
Defined.

(** C6, as the code has it: when the profile payload's status is not ["OK"],
    the analysis fails after the single profile request; the error that is
    logged and shown carries the remote comment itself when that comment is
    present and non-empty, and ["User not found"] when it is absent or empty;
    no history request is issued and no result or profile is stored. *)
Theorem profile_failure_reported (remote : Remote) (p : Page) (code : Z)
    (userData : Api.Envelope UserInfo) :
  blank (username p) = false ->
  user_info remote (user_info_url (username p))
    = inr {| Api.http_status := code; Api.json_body := inr userData |} ->
  Api.status userData <> Some "OK" ->
  exists msg : string,
    click remote p =
      {| page := settled p None None;
         events :=
           [Fetch (user_info_url (username p));
            ConsoleError "Error analyzing user:" {| error_name := Error; message := msg |};
            ShowToast {| title := "Error"; description := msg; variant := destructive |}] |} /\
    (forall c, Api.comment userData = Some c -> c <> "" -> msg = c) /\
    (Api.comment userData = None \/ Api.comment userData = Some "" ->
     msg = "User not found") /\
    requests (click remote p) = [user_info_url (username p)] /\
    (forall h, user_status_url h ∉ requests (click remote p)).
Proof.
  intros Hname Hinfo Hs.
  exists (Js.or_else (Api.comment userData) "User not found").
  rewrite (click_profile_failed remote p code userData Hname Hinfo Hs).
  split; [reflexivity|]. repeat split.
  - intros c -> Hc. cbn. now rewrite decide_False.
  - intros [-> | ->]; reflexivity.
  - intros h Hin. cbn in Hin. apply list_elem_of_singleton in Hin.
    symmetry in Hin. now apply urls_differ in Hin.
Qed.

Lemma profile_failure_reported_witness :
  let userData := envelope "FAILED" (Some "handle not found") [] in
  let remote := answering 200 userData 200 (envelope "OK" None []) in
  exists msg : string,
    click remote (typed "tourist") =
      {| page := settled (typed "tourist") None None;
         events :=
           [Fetch (user_info_url "tourist");
            ConsoleError "Error analyzing user:" {| error_name := Error; message := msg |};
            ShowToast {| title := "Error"; description := msg; variant := destructive |}] |} /\
    (forall c, Api.comment userData = Some c -> c <> "" -> msg = c) /\
    (Api.comment userData = None \/ Api.comment userData = Some "" ->
     msg = "User not found") /\
    requests (click remote (typed "tourist")) = [user_info_url "tourist"] /\
    (forall h, user_status_url h ∉ requests (click remote (typed "tourist"))).
Proof.
  apply (profile_failure_reported
           (answering 200 (envelope "FAILED" (Some "handle not found") [])
                      200 (envelope "OK" None []))
           (typed "tourist") 200 (envelope "FAILED" (Some "handle not found") []));
    [reflexivity | reflexivity | discriminate].
Defined.

(** C6 fails as stated: a comment that is present but empty is not carried;
    the generic message replaces it. *)
Lemma empty_comment_not_carried :
  let userData := envelope "FAILED" (Some "") ([] : list UserInfo) in
  let w := click (answering 200 userData 200 (envelope "OK" None [])) (typed "tourist") in
  Api.status userData <> Some "OK" /\
  Api.comment userData = Some "" /\
  map description (toasts w) = ["User not found"].
Proof. repeat split. discriminate. Qed.

(** ** The handle sent to the platform *)

(** C7, as the code has it: for a user name that is not blank, every request
    carries the user name exactly as typed: the profile request comes first,
    the history request (issued once the profile is accepted) carries the same
    value.  Trimming only serves the emptiness test; the value sent is the
    trimmed handle when the typed name has no white space around it. *)
Theorem requests_carry_typed_handle (remote : Remote) (p : Page) :
  blank (username p) = false ->
  head (requests (click remote p)) = Some (user_info_url (username p)) /\
  requests (click remote p)
    `prefix_of` [user_info_url (username p); user_status_url (username p)] /\
  (forall code userData,
     user_info remote (user_info_url (username p))
       = inr {| Api.http_status := code; Api.json_body := inr userData |} ->
     Api.status userData = Some "OK" ->
     requests (click remote p)
       = [user_info_url (username p); user_status_url (username p)]) /\
  (Js.trim (username p) = username p ->
   requests (click remote p)
     `prefix_of` [user_info_url (Js.trim (username p));
                  user_status_url (Js.trim (username p))]).
Proof.
  intros Hname.
  assert (Hshape :
    requests (click remote p) = [user_info_url (username p)] \/
    requests (click remote p)
      = [user_info_url (username p); user_status_url (username p)]).
  { destruct (user_info remote (user_info_url (username p)))
      as [e|[code [e|userData]]] eqn:Hr.
    - left. now rewrite (click_profile_rejected _ _ _ Hname Hr).
    - left. now rewrite (click_profile_not_json _ _ _ _ Hname Hr).
    - destruct (decide (Api.status userData = Some "OK")) as [Hs|Hs].
      + right. now apply (click_profile_ok _ _ _ _ Hname Hr Hs).
      + left. now rewrite (click_profile_failed _ _ _ _ Hname Hr Hs). }
  assert (Hpre : requests (click remote p)
            `prefix_of` [user_info_url (username p); user_status_url (username p)]).
  { destruct Hshape as [-> | ->]; [|reflexivity].
    now exists [user_status_url (username p)]. }
  repeat split.
  - now destruct Hshape as [-> | ->].
  - exact Hpre.
  - intros code userData Hr Hs. now apply (click_profile_ok _ _ _ _ Hname Hr Hs).
  - intros ->. exact Hpre.
Qed.

Lemma requests_carry_typed_handle_witness :
  let remote := answering 200 (envelope "OK" None [tourist]) 200 (envelope "OK" None []) in
  let p := typed " tourist " in
  head (requests (click remote p)) = Some (user_info_url (username p)) /\
  requests (click remote p)
    `prefix_of` [user_info_url (username p); user_status_url (username p)] /\
  (forall code userData,
     user_info remote (user_info_url (username p))
       = inr {| Api.http_status := code; Api.json_body := inr userData |} ->
     Api.status userData = Some "OK" ->
     requests (click remote p)
       = [user_info_url (username p); user_status_url (username p)]) /\
  (Js.trim (username p) = username p ->
   requests (click remote p)
     `prefix_of` [user_info_url (Js.trim (username p));
                  user_status_url (Js.trim (username p))]).
Proof.
  apply (requests_carry_typed_handle
           (answering 200 (envelope "OK" None [tourist]) 200 (envelope "OK" None []))
           (typed " tourist ")).
  reflexivity.
Defined.

(** C7 fails as stated: white space typed around the handle is sent along. *)
Lemma padded_handle_sent_untrimmed :
  let w := click (answering 200 (envelope "OK" None [tourist]) 200 (envelope "OK" None []))
                 (typed " tourist ") in
  Js.trim " tourist " = "tourist" /\
  requests w = [user_info_url " tourist "; user_status_url " tourist "] /\
  requests w <> [user_info_url (Js.trim " tourist ");
                 user_status_url (Js.trim " tourist ")].
Proof. repeat split. vm_compute. discriminate. Qed.

(** ** What makes a fetch fail *)

(** C8, as the code has it: failure is decided by the payload alone.  Whatever
    HTTP status codes the two responses bear, the profile step fails exactly
    when the profile payload's status is not ["OK"] (with the remote comment,
    or ["User not found"]), the history step fails exactly when the history
    payload's status is not ["OK"] (with the remote comment, or ["Failed to
    fetch submissions"]), and with two ["OK"] payloads the analysis is
    produced. *)
Theorem failure_decided_by_payload (remote : Remote) (p : Page) (code1 code2 : Z)
    (userData : Api.Envelope UserInfo) (submissionsData : Api.Envelope Submission) :
  blank (username p) = false ->
  user_info remote (user_info_url (username p))
    = inr {| Api.http_status := code1; Api.json_body := inr userData |} ->
  user_status remote (user_status_url (username p))
    = inr {| Api.http_status := code2; Api.json_body := inr submissionsData |} ->
  (Api.status userData <> Some "OK" ->
   result (page (click remote p)) = None /\
   toasts (click remote p)
     = [{| title := "Error";
           description := Js.or_else (Api.comment userData) "User not found";
           variant := destructive |}]) /\
  (Api.status userData = Some "OK" -> Api.status submissionsData <> Some "OK" ->
   result (page (click remote p)) = None /\
   toasts (click remote p)
     = [{| title := "Error";
           description := Js.or_else (Api.comment submissionsData)
                                     "Failed to fetch submissions";
           variant := destructive |}]) /\
  (Api.status userData = Some "OK" -> Api.status submissionsData = Some "OK" ->
   result (page (click remote p))
     = Some (analysisResult (Api.result submissionsData)) /\
   forall t, t ∈ toasts (click remote p) -> title t <> "Error").
Proof.
  intros Hname Hinfo Hhist.
  split; [intros Hs | split; [intros Hs Hs' | intros Hs Hs']].
  - now rewrite (click_profile_failed _ _ _ _ Hname Hinfo Hs).
  - now rewrite (click_history_failed _ _ _ _ Hname Hinfo Hs _ _ Hhist Hs').
  - rewrite (click_analysed _ _ _ _ Hname Hinfo Hs _ _ Hhist Hs').
    split; [reflexivity|].
    apply (no_error_toast _ [Fetch _; Fetch _]); [discriminate | discriminate |].
    intros t Ht. cbn in Ht. now apply not_elem_of_nil in Ht.
Qed.

Lemma failure_decided_by_payload_witness :
  let userData := envelope "OK" None [tourist] in
  let submissionsData := envelope "FAILED" (Some "Call limit exceeded") [] in
  let remote := answering 200 userData 503 submissionsData in
  let p := typed "tourist" in
  (Api.status userData <> Some "OK" ->
   result (page (click remote p)) = None /\
   toasts (click remote p)
     = [{| title := "Error";
           description := Js.or_else (Api.comment userData) "User not found";
           variant := destructive |}]) /\
  (Api.status userData = Some "OK" -> Api.status submissionsData <> Some "OK" ->
   result (page (click remote p)) = None /\
   toasts (click remote p)
     = [{| title := "Error";
           description := Js.or_else (Api.comment submissionsData)
                                     "Failed to fetch submissions";
           variant := destructive |}]) /\
  (Api.status userData = Some "OK" -> Api.status submissionsData = Some "OK" ->
   result (page (click remote p))
     = Some (analysisResult (Api.result submissionsData)) /\
   forall t, t ∈ toasts (click remote p) -> title t <> "Error").
Proof.
  apply (failure_decided_by_payload
           (answering 200 (envelope "OK" None [tourist])
                      503 (envelope "FAILED" (Some "Call limit exceeded") []))
           (typed "tourist") 200 503
           (envelope "OK" None [tourist])
           (envelope "FAILED" (Some "Call limit exceeded") []));
    reflexivity.
Defined.

(** C8 fails as stated: responses bearing HTTP 500 and 404 whose payloads say
    ["OK"] are analysed like any other. *)
Lemma http_error_status_ignored :
  let w := click (answering 500 (envelope "OK" None [tourist])
                            404 (envelope "OK" None [submission_with 1 (Some "OK")]))
                 (typed "tourist") in
  result (page w) = Some (analysisResult [submission_with 1 (Some "OK")]) /\
  userInfo (page w) = Some tourist /\
  toasts w = [{| title := "Analysis Complete";
                 description := "No suspicious activity detected";
                 variant := None |}].
Proof. repeat split. Qed.

(** ** The first profile of the list *)

(** C10: once the profile payload says ["OK"], the page keeps the first
    element of its result list without looking at the list's length: the
    stored profile is defined exactly when the list is non-empty, the history
    request follows in either case, and with an empty list and an accepted
    history the analysis completes with no profile stored. *)
Theorem first_profile_unchecked (remote : Remote) (p : Page) (code : Z)
    (userData : Api.Envelope UserInfo) :
  blank (username p) = false ->
  user_info remote (user_info_url (username p))
    = inr {| Api.http_status := code; Api.json_body := inr userData |} ->
  Api.status userData = Some "OK" ->
  userInfo (page (click remote p)) = Api.result userData !! 0%nat /\
  (is_Some (userInfo (page (click remote p))) <-> Api.result userData <> []) /\
  requests (click remote p)
    = [user_info_url (username p); user_status_url (username p)] /\
  (Api.result userData = [] ->
   userInfo (page (click remote p)) = None /\
   forall code' submissionsData,
     user_status remote (user_status_url (username p))
       = inr {| Api.http_status := code'; Api.json_body := inr submissionsData |} ->
     Api.status submissionsData = Some "OK" ->
     result (page (click remote p))
       = Some (analysisResult (Api.result submissionsData)) /\
     forall t, t ∈ toasts (click remote p) -> title t <> "Error").
Proof.
  intros Hname Hinfo Hok.
  destruct (click_profile_ok remote p code userData Hname Hinfo Hok) as [Hu Hreq].
  split; [exact Hu|]. split; [|split; [exact Hreq|]].
  - rewrite Hu. destruct (Api.result userData) as [|x l]; cbn.
    + split; [intros [? [=]] | congruence].
    + split; [discriminate | eauto].
  - intros Hnil. split; [now rewrite Hu, Hnil|].
    intros code' submissionsData Hr Hs.
    rewrite (click_analysed _ _ _ _ Hname Hinfo Hok _ _ Hr Hs). split; [reflexivity|].
    apply (no_error_toast _ [Fetch _; Fetch _]); [discriminate | discriminate |].
    intros t Ht. cbn in Ht. now apply not_elem_of_nil in Ht.
Qed.

Lemma first_profile_unchecked_witness :
  let userData := envelope "OK" None ([] : list UserInfo) in
  let remote := answering 200 userData 200 (envelope "OK" None [submission_with 1 None]) in
  let p := typed "tourist" in
  userInfo (page (click remote p)) = Api.result userData !! 0%nat /\
  (is_Some (userInfo (page (click remote p))) <-> Api.result userData <> []) /\
  requests (click remote p)
    = [user_info_url (username p); user_status_url (username p)] /\
  (Api.result userData = [] ->
   userInfo (page (click remote p)) = None /\
   forall code' submissionsData,
     user_status remote (user_status_url (username p))
       = inr {| Api.http_status := code'; Api.json_body := inr submissionsData |} ->
     Api.status submissionsData = Some "OK" ->
     result (page (click remote p))
       = Some (analysisResult (Api.result submissionsData)) /\
     forall t, t ∈ toasts (click remote p) -> title t <> "Error").
Proof.
  apply (first_profile_unchecked
           (answering 200 (envelope "OK" None [])
                      200 (envelope "OK" None [submission_with 1 None]))
           (typed "tourist") 200 (envelope "OK" None []));
    reflexivity.
Defined.

(** * Further properties of the page *)

(** ** Every way [analyzeUser] can end *)

(** With a user name that is not blank a click ends in one of two ways: a
    failure, reported after one or two requests, or an analysis, stored after
    both requests. *)
Lemma click_outcome (remote : Remote) (p : Page) :
  blank (username p) = false ->
  (exists e u reqs,
     click remote p
       = {| page := settled p None u; events := (Fetch <$> reqs) ++ reported e |} /\
     (reqs = [user_info_url (username p)] /\ u = None \/
      reqs = [user_info_url (username p); user_status_url (username p)])) \/
  (exists u submissions t,
     click remote p
       = {| page := settled p (Some (analysisResult submissions)) u;
            events := [Fetch (user_info_url (username p));
                       Fetch (user_status_url (username p)); ShowToast t] |} /\
     title t <> "Error").
Proof.
  intros Hname.
  destruct (user_info remote (user_info_url (username p)))
    as [e|[code [e|userData]]] eqn:Hinfo.
  - left. exists e, None, [user_info_url (username p)].
    rewrite (click_profile_rejected _ _ _ Hname Hinfo). auto.
  - left. exists e, None, [user_info_url (username p)].
    rewrite (click_profile_not_json _ _ _ _ Hname Hinfo). auto.
  - destruct (decide (Api.status userData = Some "OK")) as [Hok|Hno].
    2:{ left. eexists _, None, [user_info_url (username p)].
        rewrite (click_profile_failed _ _ _ _ Hname Hinfo Hno). auto. }
    destruct (user_status remote (user_status_url (username p)))
      as [e|[code' [e|submissionsData]]] eqn:Hr.
    + left. eexists e, _, [_; _].
      rewrite (click_history_rejected _ _ _ _ Hname Hinfo Hok _ Hr). auto.
    + left. eexists e, _, [_; _].
      rewrite (click_history_not_json _ _ _ _ Hname Hinfo Hok _ _ Hr). auto.
    + destruct (decide (Api.status submissionsData = Some "OK")) as [Hs|Hs].
      * right. eexists _, _, _.
        rewrite (click_analysed _ _ _ _ Hname Hinfo Hok _ _ Hr Hs).
        split; [reflexivity|]. now destruct (isCheat _).
      * left. eexists _, _, [_; _].
        rewrite (click_history_failed _ _ _ _ Hname Hinfo Hok _ _ Hr Hs). auto.
Qed.

(** A click reads nothing of the page but the typed user name. *)
Lemma click_fresh (remote : Remote) (p : Page) :
  blank (username p) = false -> click remote p = click remote (typed (username p)).
Proof.
  intros Hname. unfold click, analyzeUser, bind, read. cbn [page username typed].
  rewrite !(decide_False (P := Js.trim _ = _)) by exact (not_blank_trim p Hname).
  reflexivity.
Qed.

Lemma click_username (remote : Remote) (p : Page) :
  username (page (click remote p)) = username p.
Proof.
  destruct (blank (username p)) eqn:Hname.
  - now rewrite (click_blank remote p Hname).
  - destruct (click_outcome remote p Hname)
      as [(e & u & reqs & -> & _) | (u & subs & t & -> & _)]; reflexivity.
Qed.

(** X1: whatever the platform answers and whatever the page showed, one
    click shows exactly one toast, sends at most two requests and leaves the
    typed user name as it was. *)
Theorem click_one_toast (remote : Remote) (p : Page) :
  length (toasts (click remote p)) = 1 /\
  length (requests (click remote p)) <= 2 /\
  username (page (click remote p)) = username p.
Proof.
  split; [|split; [|apply click_username]];
    (destruct (blank (username p)) eqn:Hname;
     [rewrite (click_blank remote p Hname); cbn; lia|]);
    destruct (click_outcome remote p Hname)
      as [(e & u & reqs & -> & [[-> _] | ->]) | (u & subs & t & -> & _)];
    cbn; lia.
Qed.

(** X2: with a user name that is not blank, the click leaves [loading] off
    and keeps nothing of what the page showed before: the outcome is the one a
    fresh page with the same user name would get. *)
Theorem click_forgets_previous_state (remote : Remote) (p : Page) :
  blank (username p) = false ->
  loading (page (click remote p)) = false /\
  click remote p = click remote (typed (username p)).
Proof.
  intros Hname. split; [|now apply click_fresh].
  destruct (click_outcome remote p Hname)
    as [(e & u & reqs & -> & _) | (u & subs & t & -> & _)]; reflexivity.
Qed.

Lemma click_forgets_previous_state_witness :
  let remote := answering 200 (envelope "OK" None [tourist]) 200 (envelope "OK" None []) in
  let p := {| username := "tourist"; loading := true;
              result := Some (analysisResult [submission_with 1 (Some "SKIPPED")]);
              userInfo := Some tourist |} in
  loading (page (click remote p)) = false /\
  click remote p = click remote (typed (username p)).
Proof.
  apply (click_forgets_previous_state
           (answering 200 (envelope "OK" None [tourist]) 200 (envelope "OK" None []))
           {| username := "tourist"; loading := true;
              result := Some (analysisResult [submission_with 1 (Some "SKIPPED")]);
              userInfo := Some tourist |}).
  reflexivity.
Defined.

(** X3: no failure is silent and no success is logged as an error.  With a
    user name that is not blank, either no result is stored, exactly one error
    is logged to the console and the single toast is the error toast showing
    that error's message; or a result is stored, nothing is logged and the
    toast is not an error toast. *)
Theorem failures_logged_and_shown (remote : Remote) (p : Page) :
  blank (username p) = false ->
  (result (page (click remote p)) = None /\
   exists e,
     logged_errors (click remote p) = [e] /\
     toasts (click remote p)
       = [{| title := "Error"; description := message e; variant := destructive |}]) \/
  (is_Some (result (page (click remote p))) /\
   logged_errors (click remote p) = [] /\
   forall t, t ∈ toasts (click remote p) -> title t <> "Error").
Proof.
  intros Hname.
  destruct (click_outcome remote p Hname)
    as [(e & u & reqs & -> & [[-> _] | ->]) | (u & subs & t & -> & Ht)].
  - left. split; [reflexivity|]. now exists e.
  - left. split; [reflexivity|]. now exists e.
  - right. split; [eexists; reflexivity|]. split; [reflexivity|].
    intros t' Hin. cbn in Hin. apply list_elem_of_singleton in Hin. now subst.
Qed.

Lemma failures_logged_and_shown_witness :
  let remote :=
    {| user_info := fun _ => inl {| error_name := TypeError; message := "Failed to fetch" |};
       user_status := fun _ => inl {| error_name := TypeError; message := "Failed to fetch" |} |} in
  let p := typed "tourist" in
  (result (page (click remote p)) = None /\
   exists e,
     logged_errors (click remote p) = [e] /\
     toasts (click remote p)
       = [{| title := "Error"; description := message e; variant := destructive |}]) \/
  (is_Some (result (page (click remote p))) /\
   logged_errors (click remote p) = [] /\
   forall t, t ∈ toasts (click remote p) -> title t <> "Error").
Proof.
  apply (failures_logged_and_shown
           {| user_info := fun _ => inl {| error_name := TypeError; message := "Failed to fetch" |};
              user_status := fun _ => inl {| error_name := TypeError; message := "Failed to fetch" |} |}
           (typed "tourist")).
  reflexivity.
Defined.

(** X4: when the profile request cannot complete, or its body is not JSON,
    the thrown error is shown as it is: its message is the toast's text, it is
    logged once, no history request follows and neither a profile nor a result
    is stored. *)
Theorem profile_transport_failure (remote : Remote) (p : Page) (e : JsError) :
  blank (username p) = false ->
  user_info remote (user_info_url (username p)) = inl e \/
  (exists code, user_info remote (user_info_url (username p))
                = inr {| Api.http_status := code; Api.json_body := inl e |}) ->
  toasts (click remote p)
    = [{| title := "Error"; description := message e; variant := destructive |}] /\
  logged_errors (click remote p) = [e] /\
  requests (click remote p) = [user_info_url (username p)] /\
  page (click remote p) = settled p None None.
Proof.
  intros Hname [Hr | [code Hr]].
  - now rewrite (click_profile_rejected _ _ _ Hname Hr).
  - now rewrite (click_profile_not_json _ _ _ _ Hname Hr).
Qed.

Lemma profile_transport_failure_witness :
  let e := {| error_name := SyntaxError; message := "Unexpected token < in JSON at position 0" |} in
  let remote :=
    {| user_info := fun _ => inr {| Api.http_status := 502; Api.json_body := inl e |};
       user_status := fun _ => inr {| Api.http_status := 502; Api.json_body := inl e |} |} in
  let p := typed "tourist" in
  toasts (click remote p)
    = [{| title := "Error"; description := message e; variant := destructive |}] /\
  logged_errors (click remote p) = [e] /\
  requests (click remote p) = [user_info_url (username p)] /\
  page (click remote p) = settled p None None.
Proof.
  apply (profile_transport_failure
           {| user_info := fun _ =>
                inr {| Api.http_status := 502;
                       Api.json_body :=
                         inl {| error_name := SyntaxError;
                                message := "Unexpected token < in JSON at position 0" |} |};
              user_status := fun _ =>
                inr {| Api.http_status := 502;
                       Api.json_body :=
                         inl {| error_name := SyntaxError;
                                message := "Unexpected token < in JSON at position 0" |} |} |}
           (typed "tourist")
           {| error_name := SyntaxError;
              message := "Unexpected token < in JSON at position 0" |}).
  - reflexivity.
  - right. now exists 502%Z.
Defined.

(** X5: when the profile is accepted and the history step fails, in any of
    its three ways (the request cannot complete, the body is not JSON, the
    payload's status is not ["OK"]), the page keeps the profile just fetched
    and stores no result. *)
Theorem history_failure_keeps_profile (remote : Remote) (p : Page) (code : Z)
    (userData : Api.Envelope UserInfo) :
  blank (username p) = false ->
  user_info remote (user_info_url (username p))
    = inr {| Api.http_status := code; Api.json_body := inr userData |} ->
  Api.status userData = Some "OK" ->
  (forall code' submissionsData,
     user_status remote (user_status_url (username p))
       = inr {| Api.http_status := code'; Api.json_body := inr submissionsData |} ->
     Api.status submissionsData <> Some "OK") ->
  page (click remote p) = settled p None (Api.result userData !! 0%nat) /\
  exists e,
    events (click remote p)
      = [Fetch (user_info_url (username p)); Fetch (user_status_url (username p))]
        ++ reported e.
Proof.
  intros Hname Hinfo Hok Hfail.
  destruct (user_status remote (user_status_url (username p)))
    as [e|[code' [e|submissionsData]]] eqn:Hr.
  - rewrite (click_history_rejected _ _ _ _ Hname Hinfo Hok _ Hr). eauto.
  - rewrite (click_history_not_json _ _ _ _ Hname Hinfo Hok _ _ Hr). eauto.
  - rewrite (click_history_failed _ _ _ _ Hname Hinfo Hok _ _ Hr (Hfail _ _ eq_refl)).
    eauto.
Qed.

Lemma history_failure_keeps_profile_witness :
  let userData := envelope "OK" None [tourist] in
  let remote :=
    {| user_info := fun _ => inr {| Api.http_status := 200; Api.json_body := inr userData |};
       user_status := fun _ => inl {| error_name := TypeError; message := "Failed to fetch" |} |} in
  let p := typed "tourist" in
  page (click remote p) = settled p None (Api.result userData !! 0%nat) /\
  exists e,
    events (click remote p)
      = [Fetch (user_info_url (username p)); Fetch (user_status_url (username p))]
        ++ reported e.
Proof.
  apply (history_failure_keeps_profile
           {| user_info := fun _ =>
                inr {| Api.http_status := 200;
                       Api.json_body := inr (envelope "OK" None [tourist]) |};
              user_status := fun _ =>
                inl {| error_name := TypeError; message := "Failed to fetch" |} |}
           (typed "tourist") 200 (envelope "OK" None [tourist]));
    [reflexivity | reflexivity | reflexivity | discriminate].
Defined.

(** X20: asking again changes nothing.  While the platform answers the same,
    a second click on the page the first click left gives the same page and
    the same effects as the first. *)
Theorem click_again (remote : Remote) (p : Page) :
  click remote (page (click remote p)) = click remote p.
Proof.
  destruct (blank (username p)) eqn:Hname.
  - rewrite (click_blank remote p Hname). cbn [page]. now apply click_blank.
  - rewrite (click_fresh remote (page (click remote p)));
      rewrite click_username; [|exact Hname].
    symmetry. now apply click_fresh.
Qed.

Lemma skip_count_pos (submissions : list Submission) :
  0 < skip_count submissions <->
  exists sub, sub ∈ submissions /\ verdict sub = Some "SKIPPED".
Proof.
  rewrite <- skip_count_filter. unfold skipped_submissions. split.
  - intros H. destruct (filter is_skipped submissions) as [|sub l] eqn:E; [cbn in H; lia|].
    exists sub. assert (Hin : sub ∈ filter is_skipped submissions) by (rewrite E; left).
    apply list_elem_of_filter in Hin as [Hs Hin]. auto.
  - intros (sub & Hin & Hs).
    assert (Hf : sub ∈ filter is_skipped submissions) by now apply list_elem_of_filter.
    destruct (filter is_skipped submissions); [now apply not_elem_of_nil in Hf | cbn; lia].
Qed.

(** X6: when both payloads are accepted, the toast is the destructive
    "Potential Cheater Detected!" one exactly when some fetched submission is
    skipped, and it then announces the true number of skipped submissions,
    whatever the cap of the displayed sample; otherwise it is the "Analysis
    Complete" toast. *)
Theorem cheater_toast_iff_skipped (remote : Remote) (p : Page) (code1 code2 : Z)
    (userData : Api.Envelope UserInfo) (submissionsData : Api.Envelope Submission) :
  blank (username p) = false ->
  user_info remote (user_info_url (username p))
    = inr {| Api.http_status := code1; Api.json_body := inr userData |} ->
  user_status remote (user_status_url (username p))
    = inr {| Api.http_status := code2; Api.json_body := inr submissionsData |} ->
  Api.status userData = Some "OK" ->
  Api.status submissionsData = Some "OK" ->
  ((exists sub, sub ∈ Api.result submissionsData /\ verdict sub = Some "SKIPPED") ->
   toasts (click remote p)
     = [{| title := "Potential Cheater Detected!";
           description := "Found " +:+ pretty (skip_count (Api.result submissionsData))
                          +:+ " skipped submissions";
           variant := destructive |}]) /\
  ((forall sub, sub ∈ Api.result submissionsData -> verdict sub <> Some "SKIPPED") ->
   toasts (click remote p)
     = [{| title := "Analysis Complete";
           description := "No suspicious activity detected";
           variant := None |}]).
Proof.
  intros Hname Hinfo Hhist Hok Hok'.
  rewrite (click_analysed _ _ _ _ Hname Hinfo Hok _ _ Hhist Hok').
  unfold toasts. cbn [events omap]. cbn [isCheat skippedSubmissions analysisResult].
  rewrite skip_count_filter. split.
  - intros Hex%skip_count_pos. now rewrite bool_decide_eq_true_2.
  - intros Hnone. rewrite bool_decide_eq_false_2; [reflexivity|].
    intros (sub & Hin & Hs)%skip_count_pos. now apply (Hnone sub).
Qed.

Lemma cheater_toast_iff_skipped_witness :
  let submissionsData :=
    envelope "OK" None (history 1 12 [1; 2; 3; 4; 5; 6; 7; 8; 9; 10; 11; 12]) in
  let remote := answering 200 (envelope "OK" None [tourist]) 200 submissionsData in
  let p := typed "tourist" in
  ((exists sub, sub ∈ Api.result submissionsData /\ verdict sub = Some "SKIPPED") ->
   toasts (click remote p)
     = [{| title := "Potential Cheater Detected!";
           description := "Found " +:+ pretty (skip_count (Api.result submissionsData))
                          +:+ " skipped submissions";
           variant := destructive |}]) /\
  ((forall sub, sub ∈ Api.result submissionsData -> verdict sub <> Some "SKIPPED") ->
   toasts (click remote p)
     = [{| title := "Analysis Complete";
           description := "No suspicious activity detected";
           variant := None |}]).
Proof.
  apply (cheater_toast_iff_skipped
           (answering 200 (envelope "OK" None [tourist]) 200
              (envelope "OK" None (history 1 12 [1; 2; 3; 4; 5; 6; 7; 8; 9; 10; 11; 12])))
           (typed "tourist") 200 200 (envelope "OK" None [tourist])
           (envelope "OK" None (history 1 12 [1; 2; 3; 4; 5; 6; 7; 8; 9; 10; 11; 12])));
    reflexivity.
Defined.

(** ** More about the analysis record *)

Lemma skip_count_app (l1 l2 : list Submission) :
  skip_count (l1 ++ l2) = skip_count l1 + skip_count l2.
Proof.
  rewrite <- !skip_count_filter. unfold skipped_submissions.
  now rewrite filter_app, length_app.
Qed.

(** X7: the statistics do not depend on the order in which the platform lists
    the submissions: two histories that are permutations of one another get
    the same total, the same count, the same percentage and the same verdict.
    (Only the displayed sample follows the order.) *)
Theorem statistics_ignore_order (l1 l2 : list Submission) :
  l1 ≡ₚ l2 ->
  totalSubmissions (analysisResult l1) = totalSubmissions (analysisResult l2) /\
  skippedSubmissions (analysisResult l1) = skippedSubmissions (analysisResult l2) /\
  skippedPercentage (analysisResult l1) = skippedPercentage (analysisResult l2) /\
  isCheat (analysisResult l1) = isCheat (analysisResult l2).
Proof.
  intros Hp.
  assert (Hlen : length l1 = length l2) by now apply Permutation_length.
  assert (Hskip : length (skipped_submissions l1) = length (skipped_submissions l2)).
  { unfold skipped_submissions. apply Permutation_length. now rewrite Hp. }
  unfold analysisResult.
  cbn [totalSubmissions skippedSubmissions skippedPercentage isCheat].
  now rewrite Hlen, Hskip.
Qed.

Lemma statistics_ignore_order_witness :
  totalSubmissions (analysisResult (history 1 3 [1])) =
    totalSubmissions (analysisResult (rev (history 1 3 [1]))) /\
  skippedSubmissions (analysisResult (history 1 3 [1])) =
    skippedSubmissions (analysisResult (rev (history 1 3 [1]))) /\
  skippedPercentage (analysisResult (history 1 3 [1])) =
    skippedPercentage (analysisResult (rev (history 1 3 [1]))) /\
  isCheat (analysisResult (history 1 3 [1])) =
    isCheat (analysisResult (rev (history 1 3 [1]))).
Proof.
  apply (statistics_ignore_order (history 1 3 [1]) (rev (history 1 3 [1]))).
  symmetry. apply Permutation_rev.
Defined.

(** X8: every submission of the displayed sample is a fetched submission
    whose verdict is ['SKIPPED'] (the table can print the verdict as a
    constant); the sample is empty exactly when the account is not flagged, so
    the table is rendered exactly when [isCheat] holds; and a history without
    repeated submissions gives a sample without repeated rows. *)
Theorem sample_rows (submissions : list Submission) :
  (forall sub, sub ∈ suspiciousSubmissions (analysisResult submissions) ->
               sub ∈ submissions /\ verdict sub = Some "SKIPPED") /\
  (suspiciousSubmissions (analysisResult submissions) = [] <->
   isCheat (analysisResult submissions) = false) /\
  shows_table (analysisResult submissions) = isCheat (analysisResult submissions) /\
  (NoDup submissions -> NoDup (suspiciousSubmissions (analysisResult submissions))).
Proof.
  unfold shows_table, analysisResult.
  cbn [suspiciousSubmissions isCheat].
  set (skipped := skipped_submissions submissions).
  split; [|split; [|split]].
  - intros sub Hin.
    assert (Hs : sub ∈ skipped) by (revert Hin; apply subseteq_take).
    apply list_elem_of_filter in Hs as [Hs Hin']. auto.
  - destruct skipped as [|sub l]; cbn; [now split|].
    split; [discriminate|]. intros H%bool_decide_eq_false. lia.
  - destruct skipped as [|sub l]; cbn; [reflexivity|].
    rewrite !bool_decide_eq_true_2 by lia. reflexivity.
  - intros Hnd. assert (Hsub : take 10 skipped `sublist_of` submissions).
    { transitivity skipped; [apply sublist_take | apply sublist_filter]. }
    eapply sublist_NoDup; eassumption.
Qed.

(** X9: the newest submissions decide the sample.  Totals and counts add up
    over a history split in a newer and an older part, and once the newer part
    holds ten skipped submissions the older part no longer changes the
    sample. *)
Theorem older_history_beyond_sample (newer older : list Submission) :
  totalSubmissions (analysisResult (newer ++ older))
    = totalSubmissions (analysisResult newer) + totalSubmissions (analysisResult older) /\
  skippedSubmissions (analysisResult (newer ++ older))
    = skippedSubmissions (analysisResult newer)
      + skippedSubmissions (analysisResult older) /\
  (10 <= skip_count newer ->
   suspiciousSubmissions (analysisResult (newer ++ older))
     = suspiciousSubmissions (analysisResult newer)) /\
  (skip_count newer = 0 ->
   suspiciousSubmissions (analysisResult (newer ++ older))
     = suspiciousSubmissions (analysisResult older)).
Proof.
  unfold analysisResult.
  cbn [totalSubmissions skippedSubmissions suspiciousSubmissions].
  rewrite <- skip_count_filter. unfold skipped_submissions.
  rewrite filter_app, !length_app. repeat split.
  - intros H. now rewrite take_app_le.
  - intros H. destruct (filter is_skipped newer); [reflexivity | discriminate].
Qed.

(** ** Order and exact values of the rounding *)
Section DoubleOrder.
Import Double.
Local Open Scope Q_scope.

Lemma binade_lt (q : Q) (j : Z) : 0 < q -> q < 2 ^ j -> (binade q < j)%Z.
Proof.
  intros Hq Hlt. destruct (binade_spec q Hq) as [Hlo _].
  apply (Qpower_lt_compat_l_inv 2); [|reflexivity].
  now apply Qle_lt_trans with q.
Qed.

Lemma binade_ge (q : Q) (j : Z) : 0 < q -> 2 ^ j <= q -> (j <= binade q)%Z.
Proof.
  intros Hq Hle. destruct (binade_spec q Hq) as [_ Hhi].
  assert (j < binade q + 1)%Z; [|lia].
  apply (Qpower_lt_compat_l_inv 2); [|reflexivity].
  now apply Qle_lt_trans with q.
Qed.

Lemma nearest_even_mono (x y : Q) : x <= y -> (nearest_even x <= nearest_even y)%Z.
Proof.
  intros Hxy.
  pose proof (Qfloor_resp_le _ _ Hxy) as Hf.
  destruct (Z.eq_dec (Qfloor x) (Qfloor y)) as [E|NE].
  - unfold nearest_even. rewrite <- E.
    destruct (Qcompare_spec (x - inject_Z (Qfloor x)) (1 # 2)) as [Ex|Lx|Gx];
      destruct (Qcompare_spec (y - inject_Z (Qfloor x)) (1 # 2)) as [Ey|Ly|Gy];
      try destruct (Z.even (Qfloor x)); try lia; lra.
  - transitivity (Qfloor y).
    + apply nearest_even_le. pose proof (Qlt_floor x) as Hx.
      apply Qle_trans with (inject_Z (Qfloor x + 1)); [now apply Qlt_le_weak|].
      rewrite <- Zle_Qle. lia.
    + apply nearest_even_ge, Qfloor_le.
Qed.

Lemma nearest_even_below_half (x : Q) (m : Z) :
  x < inject_Z m - (1 # 2) -> (nearest_even x <= m - 1)%Z.
Proof.
  intros Hx. unfold nearest_even.
  pose proof (Qfloor_le x) as Hlo.
  assert (Hf : (Qfloor x <= m - 1)%Z).
  { assert (Qfloor x < m)%Z; [|lia]. rewrite Zlt_Qlt. lra. }
  destruct (Z.eq_dec (Qfloor x) (m - 1)%Z) as [E|NE].
  - assert (Hfrac : x - inject_Z (Qfloor x) < 1 # 2).
    { rewrite E.
      assert (Em : inject_Z (m - 1) == inject_Z m - 1)
        by (unfold Z.sub; rewrite inject_Z_plus; reflexivity).
      rewrite Em. lra. }
    destruct (Qcompare_spec (x - inject_Z (Qfloor x)) (1 # 2)) as [Ec|Lc|Gc]; [lra | lia | lra].
  - destruct (Qcompare _ _); [destruct (Z.even _)| |]; lia.
Qed.

(** The mirror image of [round_pos_le]. *)
Lemma round_pos_ge (q : Q) (m k : Z) :
  0 < q -> inject_Z m * 2 ^ k <= q -> (binade q <= k + 52)%Z ->
  inject_Z m * 2 ^ k <= round_pos q.
Proof.
  intros Hq Hle He. rewrite round_pos_eq. set (e := binade q) in *.
  assert (Hn : (m * 2 ^ (k + 52 - e) <= nearest_even (q * 2 ^ (52 - e)))%Z).
  { apply nearest_even_ge. rewrite inject_Z_mult, pow2_inject by lia.
    replace (k + 52 - e)%Z with (k + (52 - e))%Z by lia.
    rewrite pow2_add, Qmult_assoc.
    apply Qmult_le_compat_r; [exact Hle | apply Qlt_le_weak, pow2_pos]. }
  apply Qle_trans with (inject_Z (m * 2 ^ (k + 52 - e)) * 2 ^ (e - 52)).
  - rewrite inject_Z_mult, pow2_inject by lia. rewrite <- Qmult_assoc, <- pow2_add.
    replace (k + 52 - e + (e - 52))%Z with k by lia. apply Qle_refl.
  - apply Qmult_le_compat_r; [|apply Qlt_le_weak, pow2_pos].
    rewrite <- Zle_Qle. exact Hn.
Qed.

(** Rounding is monotone. *)
Lemma round_mono (x y : Q) : 0 <= x -> x <= y -> round x <= round y.
Proof.
  intros Hx Hxy. unfold round at 1.
  destruct (Qcompare_spec x 0) as [E|L|G]; [apply round_nonneg; lra | lra |].
  assert (Hy : 0 < y) by lra.
  unfold round. apply Qgt_alt in Hy as Hy'. rewrite Hy'.
  destruct (binade_spec x G) as [Hxlo Hxhi]. destruct (binade_spec y Hy) as [Hylo Hyhi].
  assert (He : (binade x <= binade y)%Z).
  { apply binade_ge; [exact Hy | lra]. }
  destruct (Z.eq_dec (binade x) (binade y)) as [E|NE].
  - rewrite !round_pos_eq, <- E.
    apply Qmult_le_compat_r; [|apply Qlt_le_weak, pow2_pos].
    rewrite <- Zle_Qle. apply nearest_even_mono.
    apply Qmult_le_compat_r; [exact Hxy | apply Qlt_le_weak, pow2_pos].
  - apply Qle_trans with (inject_Z 1 * 2 ^ (binade y)).
    + apply Qle_trans with (inject_Z 1 * 2 ^ (binade x + 1)).
      * apply round_pos_le; [exact G | | lia].
        change (inject_Z 1) with 1. lra.
      * change (inject_Z 1) with 1. rewrite !Qmult_1_l. apply pow2_le. lia.
    + apply round_pos_ge; [exact Hy | | lia].
      change (inject_Z 1) with 1. lra.
Qed.

(** A value on the grid of its binade is a double: rounding leaves it. *)
Lemma round_exact (q : Q) (m k : Z) :
  0 < q -> q == inject_Z m * 2 ^ k -> (binade q <= k + 52)%Z -> round q == q.
Proof.
  intros Hq Heq He. unfold round. apply Qgt_alt in Hq as Hq'. rewrite Hq'.
  apply Qle_antisym.
  - rewrite Heq at 2. apply round_pos_le; [exact Hq | rewrite Heq; apply Qle_refl | exact He].
  - rewrite Heq at 1. apply round_pos_ge; [exact Hq | rewrite Heq; apply Qle_refl | exact He].
Qed.

Lemma round_pos_positive (q : Q) : 0 < q -> 0 < round_pos q.
Proof.
  intros Hq. destruct (round_pos_error q Hq) as [Hlo _].
  apply Qlt_le_trans with (q * (1 - 2 ^ (-53))); [|exact Hlo].
  apply Qmult_lt_0_compat; [exact Hq | reflexivity].
Qed.

Lemma round_positive (q : Q) : 0 < q -> 0 < round q.
Proof.
  intros Hq. unfold round. apply Qgt_alt in Hq as Hq'. rewrite Hq'.
  now apply round_pos_positive.
Qed.

Lemma round_zero (q : Q) : q == 0 -> round q = 0.
Proof. intros Hq. unfold round. apply Qeq_alt in Hq. now rewrite Hq. Qed.
End DoubleOrder.

(** ** The percentage at its ends and in between *)
Section Percentage.
Local Open Scope Q_scope.

(** The percentage as a function of the two counts. *)
Lemma percentage_of_counts (submissions : list Submission) :
  skippedPercentage (analysisResult submissions)
    = if decide (0 < length submissions)%nat
      then Double.mul (Double.div (Double.of_nat (skip_count submissions))
                                  (Double.of_nat (length submissions))) 100
      else 0.
Proof. unfold analysisResult. cbn. now rewrite skip_count_filter. Qed.

Lemma skip_count_le (submissions : list Submission) :
  (skip_count submissions <= length submissions)%nat.
Proof. rewrite <- skip_count_filter. apply length_filter. Qed.

Lemma of_nat_pos (n : nat) : (0 < n)%nat -> 0 < Double.of_nat n.
Proof.
  intros H. unfold Double.of_nat. change 0 with (inject_Z 0). rewrite <- Zlt_Qlt. lia.
Qed.

Lemma of_nat_nonneg (n : nat) : 0 <= Double.of_nat n.
Proof. unfold Double.of_nat. change 0 with (inject_Z 0). rewrite <- Zle_Qle. lia. Qed.

Lemma ratio_nonneg (k n : nat) : 0 <= Double.of_nat k / Double.of_nat n.
Proof.
  destruct n as [|n].
  - unfold Qdiv. change (/ Double.of_nat 0) with 0. rewrite Qmult_0_r. apply Qle_refl.
  - apply Qle_shift_div_l; [apply of_nat_pos; lia|].
    rewrite Qmult_0_l. apply of_nat_nonneg.
Qed.

(** X10: the percentage is zero exactly when no fetched submission is
    skipped, and positive exactly when the account is flagged: rounding never
    turns a flagged account's percentage into zero, nor the reverse. *)
Theorem percentage_zero_iff_clean (submissions : list Submission) :
  (skippedPercentage (analysisResult submissions) == 0 <->
   skip_count submissions = 0%nat) /\
  (0 < skippedPercentage (analysisResult submissions) <->
   isCheat (analysisResult submissions) = true).
Proof.
  assert (Hcheat : isCheat (analysisResult submissions) = true
                   <-> (0 < skip_count submissions)%nat).
  { cbn. rewrite skip_count_filter. apply bool_decide_eq_true. }
  rewrite Hcheat, percentage_of_counts.
  pose proof (skip_count_le submissions) as Hle.
  set (K := skip_count submissions) in *. set (N := length submissions) in *.
  destruct (decide (0 < N)%nat) as [HN|HN].
  2:{ split; split; intros H; try lia; try reflexivity. discriminate H. }
  destruct (Nat.eq_dec K 0%nat) as [E|NE].
  - rewrite E. unfold Double.div, Double.mul.
    rewrite (round_zero (Double.of_nat 0 / Double.of_nat N))
      by (unfold Qdiv; apply Qmult_0_l).
    rewrite (round_zero (0 * 100)) by reflexivity.
    split; split; intros H; try lia; try reflexivity. discriminate H.
  - assert (Hq : 0 < Double.of_nat K / Double.of_nat N).
    { apply Qlt_shift_div_l; [now apply of_nat_pos|].
      rewrite Qmult_0_l. apply of_nat_pos. lia. }
    assert (Hp : 0 < Double.mul (Double.div (Double.of_nat K) (Double.of_nat N)) 100).
    { apply round_positive. apply Qmult_lt_0_compat; [|reflexivity].
      now apply round_positive. }
    split; split; intros H; try lia; try exact Hp. lra.
Qed.

(** X11: the percentage follows the exact ratios.  Whenever the exact ratio
    of skipped submissions of one history is at most that of another
    (compared by cross multiplication), so are the computed percentages:
    rounding never inverts two accounts. *)
Theorem percentage_monotone (l1 l2 : list Submission) :
  (0 < length l2)%nat ->
  (skip_count l1 * length l2 <= skip_count l2 * length l1)%nat ->
  skippedPercentage (analysisResult l1) <= skippedPercentage (analysisResult l2).
Proof.
  intros HN2 Hcross. rewrite !percentage_of_counts.
  set (K1 := skip_count l1) in *. set (N1 := length l1) in *.
  set (K2 := skip_count l2) in *. set (N2 := length l2) in *.
  rewrite (decide_True (P := (0 < N2)%nat)) by exact HN2.
  destruct (decide (0 < N1)%nat) as [HN1|HN1].
  2:{ apply round_nonneg. apply Qmult_le_0_compat; [|discriminate].
      apply round_nonneg, ratio_nonneg. }
  unfold Double.mul, Double.div.
  assert (Hratio : Double.of_nat K1 / Double.of_nat N1
                   <= Double.of_nat K2 / Double.of_nat N2).
  { apply Qle_shift_div_l; [now apply of_nat_pos|].
    unfold Qdiv. rewrite <- Qmult_assoc, (Qmult_comm (/ _)), Qmult_assoc.
    apply Qle_shift_div_r; [now apply of_nat_pos|].
    unfold Double.of_nat. rewrite <- !inject_Z_mult, <- Zle_Qle. lia. }
  apply round_mono.
  - apply Qmult_le_0_compat; [|discriminate]. apply round_nonneg, ratio_nonneg.
  - apply Qmult_le_compat_r; [|discriminate].
    apply round_mono; [apply ratio_nonneg | exact Hratio].
Qed.

End Percentage.

Lemma percentage_monotone_witness :
  Qle (skippedPercentage (analysisResult (history 1 3 [1])))
      (skippedPercentage (analysisResult (history 1 7 [2; 3; 5]))).
Proof.
  apply (percentage_monotone (history 1 3 [1]) (history 1 7 [2; 3; 5]));
    vm_compute; lia.
Defined.

Section Hundred.
Local Open Scope Q_scope.

Lemma mul_100_below (x : Q) :
  0 <= x -> x <= inject_Z (2 ^ 53 - 1) * 2 ^ (-53) -> Double.mul x 100 < 100.
Proof.
  intros H0 Hx. unfold Double.mul.
  assert (HB : inject_Z (2 ^ 53 - 1) * 2 ^ (-53) == 1 - (1 # 9007199254740992))
    by reflexivity.
  rewrite HB in Hx.
  unfold Double.round. destruct (Qcompare_spec (x * 100) 0) as [E|L|G];
    [reflexivity | lra |].
  set (y := x * 100) in *.
  assert (He : (Double.binade y < 7)%Z).
  { apply binade_lt; [exact G|]. change (2 ^ 7) with 128. unfold y. lra. }
  destruct (binade_spec y G) as [Hlo Hhi].
  destruct (Z.eq_dec (Double.binade y) 6%Z) as [E6|NE6].
  - rewrite round_pos_eq, E6. change (52 - 6)%Z with 46%Z. change (6 - 52)%Z with (-46)%Z.
    assert (P46 : 2 ^ 46 == 70368744177664) by reflexivity.
    assert (N46 : 2 ^ (-46) == 1 # 70368744177664) by reflexivity.
    assert (Hn : (Double.nearest_even (y * 2 ^ 46) <= 7036874417766400 - 1)%Z).
    { apply nearest_even_below_half. rewrite P46. unfold y.
      change (inject_Z 7036874417766400) with 7036874417766400. lra. }
    apply Qle_lt_trans with (inject_Z (7036874417766400 - 1) * 2 ^ (-46)).
    + apply Qmult_le_compat_r; [|discriminate]. rewrite <- Zle_Qle. exact Hn.
    + reflexivity.
  - apply Qle_lt_trans with (inject_Z 1 * 2 ^ 6); [|reflexivity].
    apply round_pos_le; [exact G | | lia].
    apply Qle_trans with (2 ^ (Double.binade y + 1)); [now apply Qlt_le_weak|].
    change (inject_Z 1) with 1. rewrite Qmult_1_l. apply pow2_le. lia.
Qed.

(** X12: for a history of at most [2^53] submissions (any JavaScript array),
    the percentage is [100] exactly when every fetched submission is skipped:
    rounding never shows a full hundred for an account with a submission that
    was judged. *)
Theorem percentage_hundred_iff_all (submissions : list Submission) :
  (0 < length submissions)%nat ->
  (Z.of_nat (length submissions) <= 2 ^ 53)%Z ->
  skippedPercentage (analysisResult submissions) == 100 <->
  skip_count submissions = length submissions.
Proof.
  intros HN Hbig. rewrite percentage_of_counts.
  pose proof (skip_count_le submissions) as Hle.
  set (K := skip_count submissions) in *. set (N := length submissions) in *.
  rewrite decide_True by exact HN.
  pose proof (of_nat_pos N HN) as HN'.
  split.
  - intros H100. destruct (Nat.eq_dec K N) as [E|NE]; [exact E|]. exfalso.
    assert (Hq : Double.of_nat K / Double.of_nat N
                 <= inject_Z (2 ^ 53 - 1) * 2 ^ (-53)).
    { apply Qle_shift_div_r; [exact HN'|].
      assert (HB : inject_Z (2 ^ 53 - 1) * 2 ^ (-53)
                   == inject_Z (2 ^ 53 - 1) / inject_Z (2 ^ 53)) by reflexivity.
      rewrite HB. unfold Qdiv.
      rewrite <- Qmult_assoc, (Qmult_comm (/ _)), Qmult_assoc.
      apply Qle_shift_div_l; [reflexivity|].
      unfold Double.of_nat. rewrite <- !inject_Z_mult, <- Zle_Qle. nia. }
    assert (Hx : Double.div (Double.of_nat K) (Double.of_nat N)
                 <= inject_Z (2 ^ 53 - 1) * 2 ^ (-53)).
    { unfold Double.div, Double.round.
      destruct (Qcompare_spec (Double.of_nat K / Double.of_nat N) 0) as [E|L|G].
      - discriminate.
      - pose proof (ratio_nonneg K N). lra.
      - apply round_pos_le; [exact G | exact Hq |].
        assert (Double.binade (Double.of_nat K / Double.of_nat N) < 0)%Z; [|lia].
        apply binade_lt; [exact G|]. change (2 ^ 0) with 1.
        apply Qle_lt_trans with (inject_Z (2 ^ 53 - 1) * 2 ^ (-53)); [exact Hq|].
        reflexivity. }
    pose proof (mul_100_below _ (round_nonneg _ (ratio_nonneg K N)) Hx) as Hlt.
    unfold Double.div in H100, Hlt. lra.
  - intros E. rewrite E.
    assert (Hone : Double.of_nat N / Double.of_nat N == 1).
    { field. intros H0. rewrite H0 in HN'. discriminate. }
    assert (Hx : Double.div (Double.of_nat N) (Double.of_nat N) == 1).
    { unfold Double.div.
      transitivity (Double.of_nat N / Double.of_nat N); [|exact Hone].
      apply (round_exact _ 1 0); [rewrite Hone; reflexivity | rewrite Hone; reflexivity |].
      assert (Double.binade (Double.of_nat N / Double.of_nat N) <= 0)%Z; [|lia].
      apply binade_le; rewrite Hone; [reflexivity | discriminate]. }
    unfold Double.mul.
    assert (Hy : Double.div (Double.of_nat N) (Double.of_nat N) * 100 == 100)
      by (rewrite Hx; reflexivity).
    transitivity (Double.div (Double.of_nat N) (Double.of_nat N) * 100); [|exact Hy].
    apply (round_exact _ 25 2); [rewrite Hy; reflexivity | rewrite Hy; reflexivity |].
    assert (Double.binade (Double.div (Double.of_nat N) (Double.of_nat N) * 100) <= 7)%Z;
      [|lia].
    apply binade_le; rewrite Hy; [reflexivity | discriminate].
Qed.
End Hundred.

Lemma percentage_hundred_iff_all_witness :
  Qeq (skippedPercentage (analysisResult (history 1 3 [1; 2; 3]))) 100 <->
  skip_count (history 1 3 [1; 2; 3]) = length (history 1 3 [1; 2; 3]).
Proof.
  apply (percentage_hundred_iff_all (history 1 3 [1; 2; 3])); vm_compute;
    [lia | discriminate].
Defined.

(** ** Rating tiers *)

Ltac rating_cases :=
  unfold default, from_option, Datatypes.id in *;
  repeat match goal with
         | |- context [(?a =? ?b)%Z] => destruct (Z.eqb_spec a b)
         | |- context [(?a <? ?b)%Z] => destruct (Z.ltb_spec a b)
         | H : context [(?a =? ?b)%Z] |- _ => destruct (Z.eqb_spec a b)
         | H : context [(?a <? ?b)%Z] |- _ => destruct (Z.ltb_spec a b)
         end;
  cbn [negb] in *; unfold default, from_option, Datatypes.id in *.

(** X13: a higher rating never gets a lower tier.  The class of a rating is
    one of the seven of [rating_classes], its position grows with the rating,
    and a missing rating is styled like the lowest tier. *)
Theorem rating_class_monotone (r1 r2 : Z) :
  (r1 <= r2)%Z ->
  exists t1 t2,
    tier (getRatingClass (Some r1)) = Some t1 /\
    tier (getRatingClass (Some r2)) = Some t2 /\
    t1 <= t2 /\
    tier (getRatingClass None) = Some 0.
Proof.
  intros Hle. unfold getRatingClass, number_truthy. cbn [default].
  rating_cases; try lia;
    (eexists _, _; split; [lazy; reflexivity|]; split; [lazy; reflexivity|];
     split; [lia | reflexivity]).
Qed.

Lemma rating_class_monotone_witness :
  exists t1 t2,
    tier (getRatingClass (Some 1399%Z)) = Some t1 /\
    tier (getRatingClass (Some 2400%Z)) = Some t2 /\
    t1 <= t2 /\
    tier (getRatingClass None) = Some 0.
Proof. apply (rating_class_monotone 1399 2400). lia. Defined.

(** X14: the two variants of the page draw the same tiers.  Two ratings with
    the same colour have the same class; and two ratings with the same class
    have the same colour unless exactly one of them is missing or zero, the
    only case the colour variant tells apart (grey 500 against grey 600). *)
Theorem rating_variants_agree (a b : option Z) :
  (getRatingColor a = getRatingColor b -> getRatingClass a = getRatingClass b) /\
  (getRatingClass a = getRatingClass b ->
   number_truthy a = number_truthy b ->
   getRatingColor a = getRatingColor b).
Proof.
  unfold getRatingColor, getRatingClass, number_truthy.
  destruct a as [a|], b as [b|]; cbn [default negb];
    split; intros; rating_cases; try reflexivity; try discriminate; try lia.
Qed.

(** ** Numbers in labels and links *)

Lemma string_app_cons (c : ascii) (a b : string) : String c a +:+ b = String c (a +:+ b).
Proof. reflexivity. Qed.

Lemma string_app_nil (b : string) : "" +:+ b = b.
Proof. reflexivity. Qed.

Lemma all_chars_app (P : ascii -> bool) (a b : string) :
  all_chars P (a +:+ b) = all_chars P a && all_chars P b.
Proof.
  induction a as [|c a IH]; [reflexivity|].
  rewrite string_app_cons. cbn. now rewrite IH, andb_assoc.
Qed.

Lemma pretty_N_go_chars (x : N) (s : string) :
  all_chars is_number_char s = true ->
  all_chars is_number_char (pretty_N_go x s) = true.
Proof.
  revert s. induction (N.lt_wf_0 x) as [x _ IH]. intros s Hs.
  destruct (N.eq_dec x 0%N) as [->|Hx].
  - now rewrite pretty_N_go_0.
  - rewrite pretty_N_go_step by lia. apply IH.
    + apply N.div_lt; lia.
    + cbn. rewrite Hs, andb_true_r. unfold pretty_N_char.
      repeat case_match; reflexivity.
Qed.

(** A printed integer is made of digits and, at most, a sign. *)
Lemma pretty_Z_chars (n : Z) : all_chars is_number_char (pretty n) = true.
Proof.
  assert (HN : forall x : N, all_chars is_number_char (pretty x) = true).
  { intros x. unfold pretty, pretty_N. case_decide; [reflexivity|].
    now apply pretty_N_go_chars. }
  destruct n as [|q|q]; [reflexivity | apply HN |].
  unfold pretty, pretty_Z. rewrite string_app_cons, string_app_nil. cbn. apply HN.
Qed.

(** A string cut at its first slash is cut in one way only. *)
Lemma split_at_slash (a a' b b' : string) :
  all_chars is_number_char a = true ->
  all_chars is_number_char a' = true ->
  a +:+ String "/" b = a' +:+ String "/" b' ->
  a = a' /\ b = b'.
Proof.
  revert a'. induction a as [|c a IH]; intros [|c' a'] Ha Ha' E;
    rewrite ?string_app_cons, ?string_app_nil in E.
  - now injection E.
  - injection E as <- _. cbn in Ha'. discriminate.
  - injection E as -> _. cbn in Ha. discriminate.
  - injection E as -> E. cbn in Ha, Ha'.
    apply andb_true_iff in Ha as [_ Ha]. apply andb_true_iff in Ha' as [_ Ha'].
    destruct (IH a' Ha Ha' E) as [-> ->]. auto.
Qed.


(** *** [Number::toString] on the safe integers *)
Section NumberText.
Local Open Scope Q_scope.

Lemma safe_bound : (2 ^ 53 = 9007199254740992)%Z.
Proof. reflexivity. Qed.

Lemma inject_Z_below (c : Z) (j : Z) : (0 <= j)%Z -> (c < 2 ^ j)%Z -> inject_Z c < 2 ^ j.
Proof. intros Hj H. rewrite <- pow2_inject by exact Hj. now rewrite <- Zlt_Qlt. Qed.

(** A positive safe integer is a double. *)
Lemma round_safe (c : Z) :
  (0 < c < 2 ^ 53)%Z -> Double.round (inject_Z c) == inject_Z c.
Proof.
  intros [H0 H1].
  assert (Hq : 0 < inject_Z c) by (change 0 with (inject_Z 0); now rewrite <- Zlt_Qlt).
  apply (round_exact _ c 0); [exact Hq | change (2 ^ 0) with 1; ring |].
  assert (Double.binade (inject_Z c) < 53)%Z; [|lia].
  apply binade_lt; [exact Hq | apply inject_Z_below; [lia | exact H1]].
Qed.

Lemma round_above_safe (c : Z) :
  (2 ^ 53 <= c)%Z -> 2 ^ 53 <= Double.round (inject_Z c).
Proof.
  intros H.
  assert (E : Double.round (inject_Z (2 ^ 53)) == inject_Z (2 ^ 53)).
  { apply (round_exact _ 1 53); [reflexivity | reflexivity |].
    assert (Double.binade (inject_Z (2 ^ 53)) <= 53)%Z; [|lia].
    apply binade_le; [reflexivity | discriminate]. }
  apply Qle_trans with (Double.round (inject_Z (2 ^ 53))).
  - rewrite E. discriminate.
  - apply round_mono; [discriminate | now rewrite <- Zle_Qle].
Qed.

(** Among the non-negative integers only a safe integer itself denotes it. *)
Lemma rounds_to_safe (c x : Z) :
  (0 <= c)%Z -> (0 < x < 2 ^ 53)%Z -> Number.rounds_to c x = true -> c = x.
Proof.
  intros Hc [Hx0 Hx1] H. unfold Number.rounds_to in H. apply Qeq_bool_iff in H.
  pose proof (inject_Z_below x 53 ltac:(lia) Hx1) as Hx.
  destruct (Z.eq_dec c 0%Z) as [->|Hc0].
  - change (Double.round (inject_Z 0)) with 0 in H.
    pose proof (proj1 (inject_Z_injective 0 x) H). lia.
  - destruct (Z.lt_ge_cases c (2 ^ 53)%Z) as [Hlt|Hge].
    + rewrite round_safe in H by lia. exact (proj1 (inject_Z_injective c x) H).
    + pose proof (round_above_safe c Hge) as Hr. rewrite H in Hr. lra.
Qed.

Lemma shortest_safe (fuel : nat) (k d x : Z) :
  (0 < x < 2 ^ 53)%Z -> Number.shortest fuel k d x = x.
Proof.
  intros Hx. revert k. induction fuel as [|fuel IH]; intros k; [reflexivity|].
  cbn [Number.shortest]. destruct (Z.leb_spec d k) as [Hd|Hd]; [reflexivity|].
  assert (Hp : (0 < 10 ^ (d - k))%Z) by (apply Z.pow_pos_nonneg; lia).
  set (p := (10 ^ (d - k))%Z) in *.
  pose proof (Z.mul_div_le x p Hp) as Hlo.
  pose proof (Z.mul_succ_div_gt x p Hp) as Hhi.
  pose proof (Z.div_pos x p ltac:(lia) Hp) as Hdiv.
  assert (Elo : (x / p * p = p * (x / p))%Z) by ring.
  assert (Hi : Number.rounds_to (x / p * p + p) x = false).
  { destruct (Number.rounds_to (x / p * p + p) x) eqn:E; [|reflexivity].
    apply rounds_to_safe in E; [nia | nia | exact Hx]. }
  rewrite Hi.
  destruct (Number.rounds_to (x / p * p) x) eqn:E; [|apply IH].
  apply rounds_to_safe in E; [exact E | nia | exact Hx].
Qed.

Lemma positive_text_safe (z : Z) :
  (0 < z < 2 ^ 53)%Z -> Number.positive_text z = pretty z.
Proof.
  intros Hz. unfold Number.positive_text.
  pose proof (round_safe z Hz) as Hr.
  assert (Hfin : Qle_bool (2 ^ 1024) (Double.round (inject_Z z)) = false).
  { destruct (Qle_bool _ _) eqn:E; [|reflexivity]. apply Qle_bool_iff in E.
    rewrite Hr in E. pose proof (inject_Z_below z 53 ltac:(lia) (proj2 Hz)) as Hb.
    pose proof (pow2_le 53 1024 ltac:(lia)). lra. }
  assert (Ef : Qfloor (Double.round (inject_Z z)) = z) by (rewrite Hr; apply Qfloor_Z).
  rewrite Hfin, Ef, shortest_safe by exact Hz.
  rewrite (proj2 (Z.ltb_lt z (10 ^ 21))); [reflexivity|].
  rewrite safe_bound in Hz. change (10 ^ 21)%Z with 1000000000000000000000%Z. lia.
Qed.

(** On the safe integers [Number::toString] is the decimal expansion. *)
Lemma toString_safe (z : Z) : safe_integer z -> Number.toString z = pretty z.
Proof.
  unfold safe_integer. intros Hz. destruct z as [|q|q]; [reflexivity| |].
  - apply positive_text_safe. lia.
  - cbn [Number.toString Z.opp]. rewrite positive_text_safe by lia. reflexivity.
Qed.
End NumberText.

(** *** The characters of a printed number *)

Lemma all_chars_weaken (P R : ascii -> bool) (s : string) :
  (forall c, P c = true -> R c = true) ->
  all_chars P s = true -> all_chars R s = true.
Proof.
  intros HPR. induction s as [|c s IH]; [reflexivity|]. cbn.
  intros [Hc Hs]%andb_true_iff. now rewrite (HPR c Hc), IH.
Qed.

Lemma all_chars_rev_app (P : ascii -> bool) (s t : string) :
  all_chars P (String.rev_app s t) = all_chars P s && all_chars P t.
Proof.
  revert t. induction s as [|c s IH]; intros t; cbn; [reflexivity|].
  rewrite IH. cbn. destruct (P c), (all_chars P s), (all_chars P t); reflexivity.
Qed.

Lemma all_chars_rev (P : ascii -> bool) (s : string) :
  all_chars P (String.rev s) = all_chars P s.
Proof. unfold String.rev. rewrite all_chars_rev_app. cbn. apply andb_true_r. Qed.

Lemma all_chars_drop_zeros (P : ascii -> bool) (s : string) :
  all_chars P s = true -> all_chars P (Number.drop_zeros s) = true.
Proof.
  induction s as [|c s IH]; [reflexivity|]. cbn [all_chars].
  intros [Hc Hs]%andb_true_iff.
  destruct c as [[] [] [] [] [] [] [] []]; cbn [Number.drop_zeros];
    try (cbn [all_chars]; rewrite Hc, Hs; reflexivity).
  now apply IH.
Qed.

Lemma number_char_text_char (c : ascii) : is_number_char c = true -> is_text_char c = true.
Proof. intros H. unfold is_text_char. now rewrite H. Qed.

Lemma pretty_text_chars (n : Z) : all_chars is_text_char (pretty n) = true.
Proof.
  apply (all_chars_weaken is_number_char); [apply number_char_text_char|].
  apply pretty_Z_chars.
Qed.

Lemma exponent_form_chars (v : Z) :
  all_chars is_text_char (Number.exponent_form v) = true.
Proof.
  unfold Number.exponent_form.
  assert (Hs : all_chars is_text_char (Number.strip_zeros (pretty v)) = true).
  { unfold Number.strip_zeros. rewrite all_chars_rev.
    apply all_chars_drop_zeros. rewrite all_chars_rev. apply pretty_text_chars. }
  destruct (Number.strip_zeros (pretty v)) as [|c [|c' rest]]; [reflexivity| |].
  - cbn [all_chars] in *. apply andb_true_iff in Hs as [Hc _]. rewrite Hc.
    rewrite all_chars_app, pretty_text_chars. reflexivity.
  - cbn [all_chars] in Hs. apply andb_true_iff in Hs as [Hc Hs].
    cbn [all_chars]. rewrite Hc, !all_chars_app, pretty_text_chars.
    cbn [all_chars] in Hs |- *. rewrite Hs. reflexivity.
Qed.

Lemma positive_text_chars (z : Z) :
  all_chars is_text_char (Number.positive_text z) = true.
Proof.
  unfold Number.positive_text. destruct (Qle_bool _ _); [reflexivity|].
  destruct (_ <? _)%Z; [apply pretty_text_chars | apply exponent_form_chars].
Qed.

(** Whatever the integer, its text is made of the characters of numbers. *)
Lemma toString_chars (z : Z) : all_chars is_text_char (Number.toString z) = true.
Proof.
  destruct z as [|q|q]; [reflexivity | apply positive_text_chars |].
  cbn [Number.toString]. rewrite all_chars_app, positive_text_chars. reflexivity.
Qed.

(** The model prints what the engines print at the values where the decimal
    expansion and [Number::toString] part. *)
Lemma toString_examples :
  Number.toString (2 ^ 53) = "9007199254740992" /\
  Number.toString (2 ^ 53 + 1) = "9007199254740992" /\
  Number.toString (2 ^ 64) = "18446744073709552000" /\
  Number.toString (10 ^ 21 - 1) = "1e+21" /\
  Number.toString (10 ^ 21) = "1e+21" /\
  Number.toString (2 ^ 70) = "1.1805916207174113e+21" /\
  Number.toString (- 10 ^ 22) = "-1e+22" /\
  Number.toString (2 ^ 1024) = "Infinity".
Proof. vm_compute. repeat split. Qed.

(** X15: the label reads ["Unrated"] exactly when the rating is missing or
    zero, whatever the rating, which is exactly when the colour variant paints
    it grey 500; a rated handle whose rating is a safe integer is labelled
    with its rating in decimal. *)
Theorem unrated_label (rating : option Z) :
  (rating_label rating = "Unrated" <-> number_truthy rating = false) /\
  (getRatingColor rating = "text-gray-500" <-> number_truthy rating = false) /\
  (forall r, rating = Some r -> r <> 0%Z -> safe_integer r ->
             rating_label rating = pretty r).
Proof.
  split; [|split].
  - unfold rating_label. destruct (number_truthy rating) eqn:Ht; [|tauto].
    split; [|discriminate]. intros E. destruct rating as [r|]; [|discriminate].
    pose proof (toString_chars r) as Hc. cbn [number_text] in E.
    rewrite E in Hc. discriminate.
  - unfold getRatingColor. destruct (number_truthy rating) eqn:Ht; cbn [negb]; [|tauto].
    split; [|discriminate]. rating_cases; discriminate.
  - intros r -> Hr Hsafe. unfold rating_label, number_truthy, number_text.
    destruct (Z.eqb_spec r 0); [contradiction|]. cbn [negb].
    now apply toString_safe.
Qed.

(** X16: a link to a submission identifies it.  For submissions whose
    identifiers and contest identifiers are safe integers, two submissions
    with the same link have the same identifier, are both or neither attached
    to a contest, and, when attached, to the same contest. *)
Theorem submission_url_injective (s1 s2 : Submission) :
  safe_integer (id s1) -> safe_integer (id s2) ->
  safe_number (contestId s1) -> safe_number (contestId s2) ->
  getSubmissionUrl s1 = getSubmissionUrl s2 ->
  id s1 = id s2 /\
  number_truthy (contestId s1) = number_truthy (contestId s2) /\
  (number_truthy (contestId s1) = true -> contestId s1 = contestId s2).
Proof.
  intros Hi1 Hi2 Hc1 Hc2. unfold getSubmissionUrl.
  rewrite !toString_safe by assumption.
  destruct (number_truthy (contestId s1)) eqn:H1,
           (number_truthy (contestId s2)) eqn:H2; intros E.
  - apply (inj (String.app _)) in E.
    destruct (contestId s1) as [c1|], (contestId s2) as [c2|]; try discriminate.
    cbn [number_text safe_number] in *. rewrite !toString_safe in E by assumption.
    change ("/submission/" +:+ ?x) with (String "/" ("submission/" +:+ x)) in E.
    apply split_at_slash in E as [Ec Ei]; [|apply pretty_Z_chars..].
    apply (inj (String.app _)) in Ei. apply (inj pretty) in Ec, Ei.
    subst. auto.
  - rewrite !string_app_cons in E. discriminate.
  - rewrite !string_app_cons in E. discriminate.
  - apply (inj (String.app _)), (inj pretty) in E. split; [exact E|]. split; [reflexivity|].
    discriminate.
Qed.

Lemma submission_url_injective_witness :
  id (submission_with 7 (Some "OK")) = id (submission_with 7 (Some "SKIPPED")) /\
  number_truthy (contestId (submission_with 7 (Some "OK")))
    = number_truthy (contestId (submission_with 7 (Some "SKIPPED"))) /\
  (number_truthy (contestId (submission_with 7 (Some "OK"))) = true ->
   contestId (submission_with 7 (Some "OK"))
     = contestId (submission_with 7 (Some "SKIPPED"))).
Proof.
  apply (submission_url_injective (submission_with 7 (Some "OK"))
                                  (submission_with 7 (Some "SKIPPED")));
    reflexivity.
Defined.

(** X17: links to problems.  When the problem's contest identifier is missing
    or zero, the link's contest segment is the text ["undefined"] or ["0"],
    not a usable one; otherwise, for a contest identifier that is a safe
    integer, the link is the contest's problem page, and two such contest
    problems with the same link have the same contest and the same index. *)
Theorem problem_url_without_contest (submission : Submission) :
  (problem_contestId (problem submission) = None ->
   getProblemUrl submission
     = "https://codeforces.com/problemset/problem/undefined/"
       +:+ problem_index (problem submission)) /\
  (problem_contestId (problem submission) = Some 0%Z ->
   getProblemUrl submission
     = "https://codeforces.com/problemset/problem/0/"
       +:+ problem_index (problem submission)) /\
  (forall c, problem_contestId (problem submission) = Some c -> c <> 0%Z ->
   safe_integer c ->
   getProblemUrl submission
     = "https://codeforces.com/contest/" +:+ pretty c +:+ "/problem/"
       +:+ problem_index (problem submission)) /\
  (forall other,
     number_truthy (problem_contestId (problem submission)) = true ->
     number_truthy (problem_contestId (problem other)) = true ->
     safe_number (problem_contestId (problem submission)) ->
     safe_number (problem_contestId (problem other)) ->
     getProblemUrl submission = getProblemUrl other ->
     problem_contestId (problem submission) = problem_contestId (problem other) /\
     problem_index (problem submission) = problem_index (problem other)).
Proof.
  unfold getProblemUrl. split; [|split; [|split]].
  - intros ->. reflexivity.
  - intros ->. reflexivity.
  - intros c -> Hc Hsafe. unfold number_truthy, number_text.
    destruct (Z.eqb_spec c 0); [contradiction|]. cbn [negb].
    now rewrite toString_safe.
  - intros other H1 H2 Hs1 Hs2. rewrite H1, H2. intros E.
    apply (inj (String.app _)) in E.
    destruct (problem_contestId (problem submission)) as [c1|],
             (problem_contestId (problem other)) as [c2|]; try discriminate.
    cbn [number_text safe_number] in *. rewrite !toString_safe in E by assumption.
    change ("/problem/" +:+ ?x) with (String "/" ("problem/" +:+ x)) in E.
    apply split_at_slash in E as [Ec Ei]; [|apply pretty_Z_chars..].
    apply (inj (String.app _)) in Ei. apply (inj pretty) in Ec. subst. auto.
Qed.

(** ** What [trim] removes *)

Lemma string_app_nil_r (s : string) : s +:+ "" = s.
Proof. induction s as [|c s IH]; [reflexivity|]. now rewrite string_app_cons, IH. Qed.

Lemma string_app_assoc (a b c : string) : (a +:+ b) +:+ c = a +:+ (b +:+ c).
Proof. induction a as [|x a IH]; [reflexivity|]. now rewrite !string_app_cons, IH. Qed.

Lemma rev_app_rev_app (a c d : string) :
  String.rev_app (String.rev_app a c) d = String.rev_app c (a +:+ d).
Proof.
  revert c. induction a as [|x a IH]; intros c; [reflexivity|].
  cbn [String.rev_app]. now rewrite IH.
Qed.

Lemma string_rev_involutive (a : string) : String.rev (String.rev a) = a.
Proof. unfold String.rev. rewrite rev_app_rev_app. cbn. apply string_app_nil_r. Qed.

Lemma string_rev_app_append (a c : string) : String.rev_app a c = String.rev a +:+ c.
Proof.
  unfold String.rev. revert c. induction a as [|x a IH]; intros c; [reflexivity|].
  cbn [String.rev_app]. rewrite IH, (IH (String x "")), string_app_assoc. reflexivity.
Qed.

Lemma string_rev_append (a b : string) :
  String.rev (a +:+ b) = String.rev b +:+ String.rev a.
Proof.
  induction a as [|x a IH].
  - rewrite string_app_nil. symmetry. apply string_app_nil_r.
  - rewrite string_app_cons. unfold String.rev at 1 3. cbn [String.rev_app].
    rewrite !string_rev_app_append, IH, string_app_assoc. reflexivity.
Qed.

Lemma blank_rev (s : string) : blank (String.rev s) = blank s.
Proof. unfold String.rev. rewrite blank_rev_app. cbn. apply andb_true_r. Qed.

Lemma trimStart_split (s : string) :
  exists l, s = l +:+ Js.trimStart s /\ blank l = true.
Proof.
  induction s as [|c s (l & E & Hl)]; [now exists ""|]. cbn.
  destruct (Js.is_white_space c) eqn:Hc.
  - exists (String c l). rewrite string_app_cons, <- E. cbn. now rewrite Hc, Hl.
  - now exists "".
Qed.

Lemma trimStart_starts (s : string) : starts_with_white_space (Js.trimStart s) = false.
Proof.
  destruct (trimStart_head s) as [->|(c & t & -> & Hc)]; [reflexivity | exact Hc].
Qed.

Lemma trimStart_fixed (s : string) :
  starts_with_white_space s = false -> Js.trimStart s = s.
Proof. destruct s as [|c s]; [reflexivity|]. cbn. now intros ->. Qed.

(** X18: [trim] removes white space from the two ends and nothing else.  The
    typed name is the trimmed name between two runs of white space, and the
    trimmed name neither starts nor ends with white space. *)
Theorem trim_removes_only_white_space (s : string) :
  (exists l r, s = l +:+ Js.trim s +:+ r /\ blank l = true /\ blank r = true) /\
  starts_with_white_space (Js.trim s) = false /\
  ends_with_white_space (Js.trim s) = false.
Proof.
  unfold Js.trim, Js.trimEnd, ends_with_white_space.
  destruct (trimStart_split s) as (l & Es & Hl).
  set (t := Js.trimStart s) in *.
  destruct (trimStart_split (String.rev t)) as (l' & Er & Hl').
  set (v := Js.trimStart (String.rev t)) in *.
  assert (Et : t = String.rev v +:+ String.rev l').
  { rewrite <- string_rev_append, <- Er. symmetry. apply string_rev_involutive. }
  split; [|split].
  - exists l, (String.rev l'). rewrite <- Et. now rewrite blank_rev.
  - pose proof (trimStart_starts s) as Hs. fold t in Hs. rewrite Et in Hs.
    destruct (String.rev v); [reflexivity | exact Hs].
  - rewrite string_rev_involutive. apply trimStart_starts.
Qed.

(** The names that [trim] leaves as they are. *)
Lemma trim_fixed_iff (s : string) :
  Js.trim s = s <->
  starts_with_white_space s = false /\ ends_with_white_space s = false.
Proof.
  split.
  - intros E. destruct (trim_removes_only_white_space s) as (_ & H1 & H2).
    now rewrite E in H1, H2.
  - intros [H1 H2]. unfold Js.trim, Js.trimEnd.
    rewrite (trimStart_fixed s H1), (trimStart_fixed _ H2). apply string_rev_involutive.
Qed.

(** X19: the handle sent is the trimmed one exactly when nothing was typed
    around it.  With a user name that is not blank and an accepted profile,
    the two requests carry the trimmed handle if and only if the typed name
    neither starts nor ends with white space. *)
Theorem trimmed_handle_sent_iff (remote : Remote) (p : Page) (code : Z)
    (userData : Api.Envelope UserInfo) :
  blank (username p) = false ->
  user_info remote (user_info_url (username p))
    = inr {| Api.http_status := code; Api.json_body := inr userData |} ->
  Api.status userData = Some "OK" ->
  requests (click remote p)
    = [user_info_url (Js.trim (username p)); user_status_url (Js.trim (username p))] <->
  starts_with_white_space (username p) = false /\
  ends_with_white_space (username p) = false.
Proof.
  intros Hname Hinfo Hok.
  destruct (click_profile_ok remote p code userData Hname Hinfo Hok) as [_ ->].
  rewrite <- trim_fixed_iff. split.
  - intros [= E _]. symmetry. now apply (inj (String.app _)) in E.
  - now intros ->.
Qed.

Lemma trimmed_handle_sent_iff_witness :
  let remote := answering 200 (envelope "OK" None [tourist]) 200 (envelope "OK" None []) in
  let p := typed "tourist " in
  requests (click remote p)
    = [user_info_url (Js.trim (username p)); user_status_url (Js.trim (username p))] <->
  starts_with_white_space (username p) = false /\
  ends_with_white_space (username p) = false.
Proof.
  apply (trimmed_handle_sent_iff
           (answering 200 (envelope "OK" None [tourist]) 200 (envelope "OK" None []))
           (typed "tourist ") 200 (envelope "OK" None [tourist]));
    reflexivity.
Defined.
